(** * EmailListChecker Python SDK: the request pipeline and its error taxonomy

    A shallow embedding of [emaillistchecker/client.py] and
    [emaillistchecker/exceptions.py].  Python values are an inductive type,
    dictionaries are finite maps, and the two effects of the client (requests
    put on the wire, file handles opened and closed) are threaded through a
    small state-and-exception monad. *)

From Stdlib Require Import ZArith Ascii String.
From stdpp Require Import gmap strings list fin_maps pretty.

Set Warnings "-register-all".
Local Open Scope Z_scope.

(** ** Python values *)

(** The values that move through the client: what [json.loads] can produce
    and what the callers put into payloads.  A float is kept as its
    literal. *)
Inductive PyVal :=
| PNone
| PBool (b : bool)
| PInt (z : Z)
| PFloat (literal : string)
| PStr (s : string)
| PList (items : list PyVal)
| PDict (d : gmap string PyVal).

(** ** String helpers of the Python runtime *)

Module Str.

(** [s.lstrip(ch)] for a one-character argument. *)
Fixpoint lstrip (ch : ascii) (s : string) : string :=
  match s with
  | String c rest => if Ascii.eqb c ch then lstrip ch rest else s
  | EmptyString => EmptyString
  end.

(** [s.rstrip(ch)] for a one-character argument. *)
Fixpoint rstrip (ch : ascii) (s : string) : string :=
  match s with
  | String c rest =>
      match rstrip ch rest with
      | EmptyString => if Ascii.eqb c ch then EmptyString else String c EmptyString
      | kept => String c kept
      end
  | EmptyString => EmptyString
  end.

Definition lower_ascii (c : ascii) : ascii :=
  let n := nat_of_ascii c in
  if ((65 <=? n) && (n <=? 90))%nat then ascii_of_nat (n + 32) else c.

(** [s.lower()] on ASCII text. *)
Fixpoint lower (s : string) : string :=
  match s with
  | String c rest => String (lower_ascii c) (lower rest)
  | EmptyString => EmptyString
  end.

(** [str(b).lower()] for a bool [b]. *)
Definition of_bool_lower (b : bool) : string :=
  if b then "true" else "false".

(** Last character, if any. *)
Fixpoint last (s : string) : option ascii :=
  match s with
  | EmptyString => None
  | String c EmptyString => Some c
  | String _ rest => last rest
  end.

Definition head (s : string) : option ascii :=
  match s with
  | EmptyString => None
  | String c _ => Some c
  end.

(** The white space [int()] skips around a number in text that is Latin-1
    (as header values are): tab to carriage return and the space, which it
    skips itself, and U+0085 and U+00A0, which it first turns into
    spaces.  The separators 0x1C to 0x1F are not among them. *)
Definition is_space (c : ascii) : bool :=
  let n := nat_of_ascii c in
  (((9 <=? n) && (n <=? 13)) || (n =? 32) || (n =? 133) || (n =? 160))%nat.

Fixpoint lstrip_space (s : string) : string :=
  match s with
  | String c rest => if is_space c then lstrip_space rest else s
  | EmptyString => EmptyString
  end.

Fixpoint rstrip_space (s : string) : string :=
  match s with
  | String c rest =>
      match rstrip_space rest with
      | EmptyString => if is_space c then EmptyString else String c EmptyString
      | kept => String c kept
      end
  | EmptyString => EmptyString
  end.

Definition digit_of (c : ascii) : option Z :=
  let n := Z.of_nat (nat_of_ascii c) in
  if (48 <=? n) && (n <=? 57) then Some (n - 48) else None.

(** Decimal digits with single underscores between them, as [int()]
    accepts them. *)
Fixpoint digits (acc : Z) (after_digit : bool) (s : string) : option Z :=
  match s with
  | EmptyString => if after_digit then Some acc else None
  | String c rest =>
      if Ascii.eqb c "_"%char
      then if after_digit then digits acc false rest else None
      else match digit_of c with
           | Some d => digits (acc * 10 + d) true rest
           | None => None
           end
  end.

(** The number of digit characters. *)
Fixpoint count_digits (s : string) : Z :=
  match s with
  | EmptyString => 0
  | String c rest =>
      (match digit_of c with Some _ => 1 | None => 0 end) + count_digits rest
  end.

(** The interpreter's default limit on the digits of a decimal text it
    converts to an integer (CPython 3.11). *)
Definition max_str_digits : Z := 4300.

(** The digits after the sign: refused beyond the limit. *)
Definition unsigned (s : string) : option Z :=
  if max_str_digits <? count_digits s then None else digits 0 false s.

(** [int(s)] for a string [s]: surrounding whitespace, an optional sign,
    decimal digits.  [None] stands for the [ValueError]. *)
Definition to_int (s : string) : option Z :=
  match rstrip_space (lstrip_space s) with
  | String "-"%char rest => Z.opp <$> unsigned rest
  | String "+"%char rest => unsigned rest
  | body => unsigned body
  end.


End Str.

(** ** The error taxonomy ([exceptions.py]) *)

Inductive SdkClass :=
| EmailListCheckerException
| AuthenticationError
| InsufficientCreditsError
| RateLimitError
| ValidationError
| APIError.

(** The exception classes that can travel through the client: the SDK's
    own, those of the HTTP library, and the interpreter's built-ins. *)
Inductive PyClass :=
| Sdk (c : SdkClass)
| RequestException
| Timeout
| ConnectionError
| JSONDecodeError
| ValueError
| AttributeError
| FileNotFoundError
| OSError
| Exception.

Global Instance SdkClass_eq_dec : EqDecision SdkClass.
Proof. solve_decision. Defined.

Global Instance PyClass_eq_dec : EqDecision PyClass.
Proof. solve_decision. Defined.

(** Method resolution order: the class itself, then its bases.  The SDK part
    is the [class X(EmailListCheckerException)] headers of [exceptions.py];
    [Response.json()] raises [requests.exceptions.JSONDecodeError], which is
    a [RequestException] (requests 2.27 and later). *)
Definition mro (c : PyClass) : list PyClass :=
  match c with
  | Sdk EmailListCheckerException => [Sdk EmailListCheckerException; Exception]
  | Sdk k => [Sdk k; Sdk EmailListCheckerException; Exception]
  | RequestException => [RequestException; OSError; Exception]
  | Timeout => [Timeout; RequestException; OSError; Exception]
  | ConnectionError => [ConnectionError; RequestException; OSError; Exception]
  | JSONDecodeError => [JSONDecodeError; RequestException; OSError; ValueError; Exception]
  | ValueError => [ValueError; Exception]
  | AttributeError => [AttributeError; Exception]
  | FileNotFoundError => [FileNotFoundError; OSError; Exception]
  | OSError => [OSError; Exception]
  | Exception => [Exception]
  end.

Definition issubclass (c base : PyClass) : bool := bool_decide (base ∈ mro c).

(** An exception object.  SDK exceptions have the three attributes set by
    [EmailListCheckerException.__init__]; the others only have their text. *)
Inductive PyExn :=
| SdkExn (cls : SdkClass) (message : PyVal) (status_code : option Z) (response : PyVal)
| LibExn (cls : PyClass) (text : string).

Definition class_of (e : PyExn) : PyClass :=
  match e with
  | SdkExn c _ _ _ => Sdk c
  | LibExn c _ => c
  end.

Definition isinstance (e : PyExn) (base : PyClass) : bool :=
  issubclass (class_of e) base.

(** [str(e)]: the text of a library exception.  The only caller is the
    [except RequestException] clause, which no SDK exception reaches; for one
    of those the message is given when it is a string. *)
Definition str_of_exn (e : PyExn) : string :=
  match e with
  | LibExn _ text => text
  | SdkExn _ (PStr m) _ _ => m
  | SdkExn _ _ _ _ => ""
  end.

(** [def __init__(self, message, status_code=None, response=None)]: an
    omitted keyword argument is [None] here and takes the default. *)
Definition EmailListCheckerException_init (cls : SdkClass) (message : PyVal)
    (status_code : option Z) (response : option PyVal) : PyExn :=
  SdkExn cls message status_code (default PNone response).

Definition exn_message (e : PyExn) : option PyVal :=
  match e with SdkExn _ m _ _ => Some m | LibExn _ _ => None end.

Definition exn_status_code (e : PyExn) : option (option Z) :=
  match e with SdkExn _ _ s _ => Some s | LibExn _ _ => None end.

Definition exn_response (e : PyExn) : option PyVal :=
  match e with SdkExn _ _ _ r => Some r | LibExn _ _ => None end.

(** ** Requests, responses and the world the client runs in *)

(** An open file object, named by the number it got when it was opened. *)
Definition Handle := nat.

Inductive HandleState := IsOpen | IsClosed.

Global Instance HandleState_eq_dec : EqDecision HandleState.
Proof. solve_decision. Defined.

(** What [session.request] and [requests.post] are given. *)
Record Request := {
  req_method : string;
  req_url : string;
  req_headers : gmap string string;
  req_json : option PyVal;
  req_params : option PyVal;
  req_data : option PyVal;
  req_files : gmap string Handle;
  req_timeout : Z
}.

Module Response.
(** The attributes of [requests.Response] the client reads.  [headers] is
    keyed by the lower-cased header name (the library's dictionary ignores
    case); [json] is what [response.json()] does on this response: the
    decoded value, or the text of the decoding error it raises. *)
Record t := {
  status_code : Z;
  headers : gmap string string;
  content : string;
  json : PyVal + string
}.

(** [response.ok]: [raise_for_status()] raises for a status from 400 up to
    599 and for no other. *)
Definition ok (r : t) : bool :=
  negb ((400 <=? status_code r) && (status_code r <? 600)).

(** [response.headers.get(name)]. *)
Definition header (r : t) (name : string) : option string :=
  headers r !! Str.lower name.
End Response.

(** How a call to the HTTP library ends: with a response, with one of its
    own exceptions, or with the [ValueError] by which it rejects its
    arguments before anything is sent (a timeout that is zero or
    negative). *)
Inductive NetFailure := NetTimeout | NetConnectionError | NetOther.

Inductive Reply :=
| Answer (r : Response.t)
| Failure (f : NetFailure) (text : string)
| Rejected (text : string).

Definition failure_class (f : NetFailure) : PyClass :=
  match f with
  | NetTimeout => Timeout
  | NetConnectionError => ConnectionError
  | NetOther => RequestException
  end.

(** The part of the outside world the client touches. *)
Record World := {
  wire : list Request;              (* requests handed to the HTTP library, oldest first *)
  disk : gset string;               (* paths that can be opened *)
  handles : gmap Handle HandleState (* every file object opened so far *)
}.

(** ** Computations that may raise *)

Inductive Res (A : Type) :=
| Return (a : A)
| Raise (e : PyExn).
Arguments Return {A} a.
Arguments Raise {A} e.

Definition M (A : Type) : Type := World -> Res A * World.

Definition ret {A} (a : A) : M A := fun w => (Return a, w).

Definition raise {A} (e : PyExn) : M A := fun w => (Raise e, w).

Definition bind {A B} (m : M A) (k : A -> M B) : M B :=
  fun w =>
    match m w with
    | (Return a, w') => k a w'
    | (Raise e, w') => (Raise e, w')
    end.

Notation "'let!' x := m 'in' k" := (bind m (fun x => k))
  (at level 10, x name, m at level 100, k at level 200, only parsing).

(** [try: body  except cls_1: h_1  except cls_2: h_2 ...]: the first clause
    whose class the exception is an instance of handles it. *)
Fixpoint dispatch {A} (clauses : list (PyClass * (PyExn -> M A))) (e : PyExn) : M A :=
  match clauses with
  | [] => raise e
  | (cls, handler) :: others =>
      if isinstance e cls then handler e else dispatch others e
  end.

Definition try_except {A} (body : M A) (clauses : list (PyClass * (PyExn -> M A))) : M A :=
  fun w =>
    match body w with
    | (Return a, w') => (Return a, w')
    | (Raise e, w') => dispatch clauses e w'
    end.

(** [try: body  finally: cleanup]: the cleanup runs on every exit; its own
    exception, if any, replaces the outcome of the body. *)
Definition try_finally {A} (body : M A) (cleanup : M unit) : M A :=
  fun w =>
    let '(outcome, w') := body w in
    match cleanup w' with
    | (Return _, w'') => (outcome, w'')
    | (Raise e, w'') => (Raise e, w'')
    end.

(** *** Primitives of the runtime and of the HTTP library *)

Definition log_request (req : Request) (w : World) : World :=
  {| wire := wire w ++ [req]; disk := disk w; handles := handles w |}.

(** [open(path, 'rb')]. *)
Definition py_open (path : string) : M Handle :=
  fun w =>
    if decide (path ∈ disk w)
    then let h := fresh (dom (handles w)) in
         (Return h,
          {| wire := wire w; disk := disk w; handles := <[h := IsOpen]> (handles w) |})
    else (Raise (LibExn FileNotFoundError
                   ("[Errno 2] No such file or directory: '" +:+ path +:+ "'")), w).

(** [f.close()]. *)
Definition py_close (h : Handle) : M unit :=
  fun w =>
    (Return tt,
     {| wire := wire w; disk := disk w; handles := <[h := IsClosed]> (handles w) |}).

(** [type(v).__name__]. *)
Definition type_name (v : PyVal) : string :=
  match v with
  | PNone => "NoneType"
  | PBool _ => "bool"
  | PInt _ => "int"
  | PFloat _ => "float"
  | PStr _ => "str"
  | PList _ => "list"
  | PDict _ => "dict"
  end.

Definition no_get_method (v : PyVal) : PyExn :=
  LibExn AttributeError ("'" +:+ type_name v +:+ "' object has no attribute 'get'").

(** [d.get(key, default)]; only a dict has the method. *)
Definition py_get (v : PyVal) (key : string) (dflt : PyVal) : M PyVal :=
  match v with
  | PDict d => ret (default dflt (d !! key))
  | _ => raise (no_get_method v)
  end.

(** [int(x)] where [x] is the header text or the integer default. *)
Definition py_int (x : string + Z) : M Z :=
  match x with
  | inr n => ret n
  | inl s =>
      match Str.to_int s with
      | Some n => ret n
      | None => raise (LibExn ValueError
                         ("invalid literal for int() with base 10: '" +:+ s +:+ "'"))
      end
  end.

(** [response.json()]. *)
Definition response_json (r : Response.t) : M PyVal :=
  match Response.json r with
  | inl v => ret v
  | inr text => raise (LibExn JSONDecodeError text)
  end.

(** [bool(x)] for the optional arguments of the public methods. *)
Definition truthy_int (x : option Z) : bool :=
  match x with Some n => negb (n =? 0) | None => false end.

Definition truthy_str (x : option string) : bool :=
  match x with Some EmptyString => false | Some _ => true | None => false end.

Definition truthy_bytes (s : string) : bool :=
  match s with EmptyString => false | _ => true end.

(** The Python value of an optional argument. *)
Definition py_opt_int (x : option Z) : PyVal :=
  match x with Some n => PInt n | None => PNone end.

Definition py_opt_str (x : option string) : PyVal :=
  match x with Some s => PStr s | None => PNone end.

(** ** The client ([client.py]) *)

Record EmailListChecker := {
  api_key : string;
  base_url : string;
  timeout : Z;
  session_headers : gmap string string
}.

Definition default_base_url : string := "https://platform.emaillistchecker.io/api/v1".
Definition default_timeout : Z := 30.

Definition __init__ (api_key base_url : string) (timeout : Z) : EmailListChecker :=
  {| api_key := api_key;
     base_url := Str.rstrip "/" base_url;
     timeout := timeout;
     session_headers :=
       <["User-Agent" := "EmailListChecker-Python/1.0.0"]>
       (<["Content-Type" := "application/json"]>
       (<["Authorization" := "Bearer " +:+ api_key]> ∅)) |}.

(** The keyword arguments the public methods pass to [_request]. *)
Record Kwargs := {
  kw_json : option PyVal;
  kw_params : option PyVal;
  kw_timeout : option Z
}.

Definition no_kwargs : Kwargs :=
  {| kw_json := None; kw_params := None; kw_timeout := None |}.

Definition json_kwargs (payload : gmap string PyVal) : Kwargs :=
  {| kw_json := Some (PDict payload); kw_params := None; kw_timeout := None |}.

Definition params_kwargs (params : gmap string PyVal) : Kwargs :=
  {| kw_json := None; kw_params := Some (PDict params); kw_timeout := None |}.

(** The URL [_request] composes. *)
Definition request_url (self : EmailListChecker) (endpoint : string) : string :=
  base_url self +:+ "/" +:+ Str.lstrip "/" endpoint.

(** The request [_request] hands to the session. *)
Definition session_request_of (self : EmailListChecker) (method url : string)
    (kwargs : Kwargs) : Request :=
  {| req_method := method;
     req_url := url;
     req_headers := session_headers self;
     req_json := kw_json kwargs;
     req_params := kw_params kwargs;
     req_data := None;
     req_files := ∅;
     req_timeout := default (timeout self) (kw_timeout kwargs) |}.

(** The request [verify_batch_file] hands to [requests.post]. *)
Definition upload_request_of (self : EmailListChecker)
    (files : gmap string Handle) (data : gmap string PyVal) : Request :=
  {| req_method := "POST";
     req_url := base_url self +:+ "/verify/batch/upload";
     req_headers := <["Authorization" := "Bearer " +:+ api_key self]> ∅;
     req_json := None;
     req_params := None;
     req_data := Some (PDict data);
     req_files := files;
     req_timeout := timeout self |}.

Section Client.

(** The network: what a call of the HTTP library ([session.request],
    [requests.post]) does with a request, from the check of its arguments
    to the reading of the body. *)
Variable net : Request -> Reply.

Definition send (req : Request) : M Response.t :=
  fun w =>
    match net req with
    | Answer r => (Return r, log_request req w)
    | Failure f text => (Raise (LibExn (failure_class f) text), log_request req w)
    | Rejected text => (Raise (LibExn ValueError text), log_request req w)
    end.

(** [response.json() if response.content else fallback]. *)
Definition json_or (response : Response.t) (fallback : PyVal) : M PyVal :=
  if truthy_bytes (Response.content response)
  then response_json response
  else ret fallback.

Definition _request (self : EmailListChecker) (method endpoint : string)
    (kwargs : Kwargs) : M PyVal :=
  let url := request_url self endpoint in
  try_except
    (let! response := send (session_request_of self method url kwargs) in
     let status := Response.status_code response in
     if status =? 429 then
       let! retry_after :=
         py_int (match Response.header response "Retry-After" with
                 | Some text => inl text
                 | None => inr 60
                 end) in
       let message :=
         "Rate limit exceeded. Retry after " +:+ pretty retry_after +:+ " seconds" in
       let! body := json_or response PNone in
       raise (EmailListCheckerException_init RateLimitError (PStr message)
                (Some 429) (Some body))
     else
       let! data := json_or response (PDict ∅) in
       if status =? 401 then
         let! message := py_get data "error" (PStr "Invalid API key") in
         raise (EmailListCheckerException_init AuthenticationError message
                  (Some 401) (Some data))
       else if status =? 402 then
         let! message := py_get data "error" (PStr "Insufficient credits") in
         raise (EmailListCheckerException_init InsufficientCreditsError message
                  (Some 402) (Some data))
       else if status =? 422 then
         let! message := py_get data "message" (PStr "Validation error") in
         raise (EmailListCheckerException_init ValidationError message
                  (Some 422) (Some data))
       else if negb (Response.ok response) then
         let! message := py_get data "error" (PStr ("API error: " +:+ pretty status)) in
         raise (EmailListCheckerException_init APIError message
                  (Some status) (Some data))
       else ret data)
    [ (Timeout, fun _ =>
         raise (EmailListCheckerException_init EmailListCheckerException
                  (PStr ("Request timeout after " +:+ pretty (timeout self) +:+ " seconds"))
                  None None));
      (RequestException, fun e =>
         raise (EmailListCheckerException_init EmailListCheckerException
                  (PStr ("Request failed: " +:+ str_of_exn e))
                  None None)) ].

Definition verify (self : EmailListChecker) (email : string)
    (timeout : option Z) (smtp_check : bool) : M PyVal :=
  let params : gmap string PyVal :=
    <["smtp_check" := PBool smtp_check]> (<["email" := PStr email]> ∅) in
  let params :=
    if truthy_int timeout then <["timeout" := py_opt_int timeout]> params else params in
  let! response := _request self "POST" "/verify" (json_kwargs params) in
  py_get response "data" response.

Definition verify_batch (self : EmailListChecker) (emails : list string)
    (name callback_url : option string) (auto_start : bool) : M PyVal :=
  let data : gmap string PyVal :=
    <["auto_start" := PBool auto_start]> (<["emails" := PList (PStr <$> emails)]> ∅) in
  let data := if truthy_str name then <["name" := py_opt_str name]> data else data in
  let data :=
    if truthy_str callback_url
    then <["callback_url" := py_opt_str callback_url]> data else data in
  let! response := _request self "POST" "/verify/batch" (json_kwargs data) in
  py_get response "data" response.

Definition verify_batch_file (self : EmailListChecker) (file : string + Handle)
    (name callback_url : option string) (auto_start : bool) : M PyVal :=
  let data : gmap string PyVal :=
    <["auto_start" := PStr (Str.of_bool_lower auto_start)]> ∅ in
  let data := if truthy_str name then <["name" := py_opt_str name]> data else data in
  let data :=
    if truthy_str callback_url
    then <["callback_url" := py_opt_str callback_url]> data else data in
  let! files :=
    match file with
    | inl path => let! f := py_open path in ret (<["file" := f]> (∅ : gmap string Handle))
    | inr f => ret (<["file" := f]> (∅ : gmap string Handle))
    end in
  try_finally
    (let! response := send (upload_request_of self files data) in
     let status := Response.status_code response in
     let! response_data := json_or response (PDict ∅) in
     if status =? 401 then
       let! message := py_get response_data "error" (PStr "Invalid API key") in
       raise (EmailListCheckerException_init AuthenticationError message
                (Some 401) (Some response_data))
     else if status =? 402 then
       let! message := py_get response_data "error" (PStr "Insufficient credits") in
       raise (EmailListCheckerException_init InsufficientCreditsError message
                (Some 402) (Some response_data))
     else if status =? 422 then
       let! message := py_get response_data "message" (PStr "Validation error") in
       raise (EmailListCheckerException_init ValidationError message
                (Some 422) (Some response_data))
     else if negb (Response.ok response) then
       let! message :=
         py_get response_data "error" (PStr ("API error: " +:+ pretty status)) in
       raise (EmailListCheckerException_init APIError message
                (Some status) (Some response_data))
     else py_get response_data "data" response_data)
    (match file with
     | inl _ =>
         match files !! "file" with
         | Some f => py_close f
         | None => ret tt
         end
     | inr _ => ret tt
     end).

Definition get_batch_status (self : EmailListChecker) (batch_id : Z) : M PyVal :=
  let! response := _request self "GET" ("/verify/batch/" +:+ pretty batch_id) no_kwargs in
  py_get response "data" response.

Definition get_batch_results (self : EmailListChecker) (batch_id : Z)
    (format filter : string) : M PyVal :=
  let params : gmap string PyVal :=
    <["filter" := PStr filter]> (<["format" := PStr format]> ∅) in
  let! response :=
    _request self "GET" ("/verify/batch/" +:+ pretty batch_id +:+ "/results")
             (params_kwargs params) in
  if String.eqb format "json"
  then py_get response "data" response
  else ret response.

Definition find_email (self : EmailListChecker)
    (first_name last_name domain : string) : M PyVal :=
  let data : gmap string PyVal :=
    <["domain" := PStr domain]>
    (<["last_name" := PStr last_name]>
    (<["first_name" := PStr first_name]> ∅)) in
  let! response := _request self "POST" "/finder/email" (json_kwargs data) in
  py_get response "data" response.

Definition find_by_domain (self : EmailListChecker) (domain : string)
    (limit offset : Z) : M PyVal :=
  let data : gmap string PyVal :=
    <["offset" := PInt offset]>
    (<["limit" := PInt limit]>
    (<["domain" := PStr domain]> ∅)) in
  let! response := _request self "POST" "/finder/domain" (json_kwargs data) in
  py_get response "data" response.

Definition find_by_company (self : EmailListChecker) (company : string)
    (limit : Z) : M PyVal :=
  let data : gmap string PyVal :=
    <["limit" := PInt limit]> (<["company" := PStr company]> ∅) in
  let! response := _request self "POST" "/finder/company" (json_kwargs data) in
  py_get response "data" response.

Definition get_credits (self : EmailListChecker) : M PyVal :=
  let! response := _request self "GET" "/credits" no_kwargs in
  py_get response "data" response.

Definition get_usage (self : EmailListChecker) : M PyVal :=
  let! response := _request self "GET" "/usage" no_kwargs in
  py_get response "data" response.

Definition get_lists (self : EmailListChecker) : M PyVal :=
  let! response := _request self "GET" "/lists" no_kwargs in
  py_get response "data" response.

Definition delete_list (self : EmailListChecker) (list_id : Z) : M PyVal :=
  _request self "DELETE" ("/lists/" +:+ pretty list_id) no_kwargs.

End Client.

(** ** Calls to the public interface *)

(** One constructor per public method, with its arguments: a way to speak of
    "every operation". *)
Inductive Call :=
| Verify (email : string) (timeout : option Z) (smtp_check : bool)
| VerifyBatch (emails : list string) (name callback_url : option string) (auto_start : bool)
| VerifyBatchFile (file : string + Handle) (name callback_url : option string)
                  (auto_start : bool)
| GetBatchStatus (batch_id : Z)
| GetBatchResults (batch_id : Z) (format filter : string)
| FindEmail (first_name last_name domain : string)
| FindByDomain (domain : string) (limit offset : Z)
| FindByCompany (company : string) (limit : Z)
| GetCredits
| GetUsage
| GetLists
| DeleteList (list_id : Z).

Definition call (net : Request -> Reply) (self : EmailListChecker) (c : Call) : M PyVal :=
  match c with
  | Verify email timeout smtp_check => verify net self email timeout smtp_check
  | VerifyBatch emails name callback_url auto_start =>
      verify_batch net self emails name callback_url auto_start
  | VerifyBatchFile file name callback_url auto_start =>
      verify_batch_file net self file name callback_url auto_start
  | GetBatchStatus batch_id => get_batch_status net self batch_id
  | GetBatchResults batch_id format filter =>
      get_batch_results net self batch_id format filter
  | FindEmail first_name last_name domain => find_email net self first_name last_name domain
  | FindByDomain domain limit offset => find_by_domain net self domain limit offset
  | FindByCompany company limit => find_by_company net self company limit
  | GetCredits => get_credits net self
  | GetUsage => get_usage net self
  | GetLists => get_lists net self
  | DeleteList list_id => delete_list net self list_id
  end.

(** ** Vocabulary of the statements *)

(** What [response.json() if response.content else fallback] evaluates to,
    when it evaluates: [None] is the body that cannot be decoded. *)
Definition body_of (r : Response.t) (fallback : PyVal) : option PyVal :=
  if truthy_bytes (Response.content r)
  then match Response.json r with inl v => Some v | inr _ => None end
  else Some fallback.

(** The number read from the [Retry-After] header: 60 without the header,
    [None] when the header is not an integer. *)
Definition retry_after_of (r : Response.t) : option Z :=
  match Response.header r "Retry-After" with
  | Some text => Str.to_int text
  | None => Some 60
  end.


(** The payload value of an optional string: absent for [None] and for the
    empty string. *)
Definition field_of (x : option string) : option PyVal :=
  match x with
  | Some EmptyString => None
  | Some s => Some (PStr s)
  | None => None
  end.

(** The world after [open] has produced the handle [h], and after
    [h.close()]. *)
Definition open_handle (h : Handle) (w : World) : World :=
  {| wire := wire w; disk := disk w; handles := <[h := IsOpen]> (handles w) |}.

Definition close_handle (h : Handle) (w : World) : World :=
  {| wire := wire w; disk := disk w; handles := <[h := IsClosed]> (handles w) |}.

Definition is_dict (v : PyVal) : bool :=
  match v with PDict _ => true | _ => false end.

(** The calls that unwrap the [data] field of the decoded body. *)
Definition unwraps (c : Call) : bool :=
  match c with
  | DeleteList _ => false
  | GetBatchResults _ format _ => String.eqb format "json"
  | _ => true
  end.

(** A call that has to open a file names one that exists. *)
Definition openable (c : Call) (w : World) : Prop :=
  match c with
  | VerifyBatchFile (inl path) _ _ _ => path ∈ disk w
  | _ => True
  end.

(** The [data] field of a decoded body when it has one, the whole body
    otherwise. *)
Definition unwrapped (body : PyVal) : PyVal :=
  match body with
  | PDict d => default body (d !! "data")
  | _ => body
  end.

(** The unwrapping rule as the specification words it: every call but
    [delete_list] returns the unwrapped body. *)
Definition unwrapped_as_claimed (c : Call) (body : PyVal) (out : Res PyVal) : Prop :=
  match c with
  | DeleteList _ => out = Return body
  | _ => out = Return (unwrapped body)
  end.

(** The outcome of [raise cls(data.get(key, dflt), status_code=status,
    response=data)]. *)
Definition fail_with (cls : SdkClass) (status : Z) (data : PyVal)
    (key : string) (dflt : PyVal) : Res PyVal :=
  match data with
  | PDict d => Raise (SdkExn cls (default dflt (d !! key)) (Some status) data)
  | _ => Raise (no_get_method data)
  end.

(** The message of the [EmailListCheckerException] a transport failure is
    turned into. *)
Definition transport_message (self : EmailListChecker) (f : NetFailure)
    (text : string) : string :=
  match f with
  | NetTimeout => "Request timeout after " +:+ pretty (timeout self) +:+ " seconds"
  | _ => "Request failed: " +:+ text
  end.


(** The effect of a computation on the world is [f], whatever it returns
    or raises. *)
Definition steps {A} (m : M A) (f : World -> World) : Prop :=
  ∀ w, snd (m w) = f w.

(** A computation that leaves the world as it found it. *)
Definition pure {A} (m : M A) : Prop := steps m id.

(** [n] copies of a character. *)
Fixpoint copies (n : nat) (ch : ascii) : string :=
  match n with
  | O => EmptyString
  | S k => String ch (copies k ch)
  end.

(** *** Concrete inputs *)

Definition world0 : World := {| wire := []; disk := ∅; handles := ∅ |}.

Definition client0 : EmailListChecker := __init__ "secret" default_base_url default_timeout.

Definition always (r : Response.t) : Request -> Reply := fun _ => Answer r.

(** The outcome of one call of the shared routine against a server that
    answers [r]. *)
Definition outcome_on (r : Response.t) : Res PyVal :=
  fst (_request (always r) client0 "GET" "/credits" no_kwargs world0).

Definition json_error_text : string := "Expecting value: line 1 column 1 (char 0)".



(** A server error whose body is a JSON array, not an object. *)
Definition server_error_json_array : Response.t :=
  {| Response.status_code := 500;
     Response.headers := <["content-type" := "application/json"]> ∅;
     Response.content := "[]";
     Response.json := inl (PList []) |}.

(** The double-quote and the newline character, as strings. *)
Definition dquote : string := String "034"%char EmptyString.
Definition newline : string := String "010"%char EmptyString.

Definition wrapped_addresses : PyVal :=
  PDict (<["data" := PList [PStr "a@x.com"]]> ∅).

(** A success whose body wraps its payload in [data]. *)
Definition ok_wrapped : Response.t :=
  {| Response.status_code := 200;
     Response.headers := <["content-type" := "application/json"]> ∅;
     Response.content :=
       "{" +:+ dquote +:+ "data" +:+ dquote +:+ ": ["
           +:+ dquote +:+ "a@x.com" +:+ dquote +:+ "]}";
     Response.json := inl wrapped_addresses |}.

(** A success whose body is a JSON array at top level. *)
Definition ok_bare_list : Response.t :=
  {| Response.status_code := 200;
     Response.headers := <["content-type" := "application/json"]> ∅;
     Response.content := "[]";
     Response.json := inl (PList []) |}.

(** A success whose body is CSV text. *)
Definition csv_results : Response.t :=
  {| Response.status_code := 200;
     Response.headers := <["content-type" := "text/csv"]> ∅;
     Response.content :=
       "email,result" +:+ newline +:+ "a@x.com,deliverable" +:+ newline;
     Response.json := inr json_error_text |}.

(** A 429 without a body. *)
Definition empty_429 (headers : gmap string string) (json : PyVal + string)
    : Response.t :=
  {| Response.status_code := 429;
     Response.headers := headers;
     Response.content := "";
     Response.json := json |}.

(** A server error with a JSON object that names the error. *)
Definition server_error_named : Response.t :=
  {| Response.status_code := 503;
     Response.headers := <["content-type" := "application/json"]> ∅;
     Response.content :=
       "{" +:+ dquote +:+ "error" +:+ dquote +:+ ": "
           +:+ dquote +:+ "maintenance" +:+ dquote +:+ "}";
     Response.json := inl (PDict (<["error" := PStr "maintenance"]> ∅)) |}.

(** A network on which every request times out. *)
Definition never_answers : Request -> Reply :=
  fun _ => Failure NetTimeout "Read timed out. (read timeout=30)".

(** A rate-limit answer whose [Retry-After] is an HTTP date. *)
Definition rate_limited_http_date : Response.t :=
  {| Response.status_code := 429;
     Response.headers := <["retry-after" := "Wed, 21 Oct 2015 07:28:00 GMT"]> ∅;
     Response.content := "";
     Response.json := inr json_error_text |}.

(** A rate-limit answer with [Retry-After: 120] and no body. *)
Definition rate_limited_120 : Response.t :=
  {| Response.status_code := 429;
     Response.headers := <["retry-after" := "120"]> ∅;
     Response.content := "";
     Response.json := inr json_error_text |}.


(** *** Routes, sequences of calls and further inputs *)


(** The HTTP library rejects a timeout that is zero or negative. *)
Definition validates_timeout (net : Request -> Reply) : Prop :=
  ∀ req, req_timeout req ≤ 0 → ∃ text, net req = Rejected text.



(** The calls that go through [_request]: all but the upload. *)
Definition uses_shared_routine (c : Call) : bool :=
  match c with VerifyBatchFile _ _ _ _ => false | _ => true end.

(** Method and path (after the base URL and its slash) of a call. *)
Definition route (c : Call) : string * string :=
  match c with
  | Verify _ _ _ => ("POST", "verify")
  | VerifyBatch _ _ _ _ => ("POST", "verify/batch")
  | VerifyBatchFile _ _ _ _ => ("POST", "verify/batch/upload")
  | GetBatchStatus batch_id => ("GET", "verify/batch/" +:+ pretty batch_id)
  | GetBatchResults batch_id _ _ =>
      ("GET", "verify/batch/" +:+ pretty batch_id +:+ "/results")
  | FindEmail _ _ _ => ("POST", "finder/email")
  | FindByDomain _ _ _ => ("POST", "finder/domain")
  | FindByCompany _ _ => ("POST", "finder/company")
  | GetCredits => ("GET", "credits")
  | GetUsage => ("GET", "usage")
  | GetLists => ("GET", "lists")
  | DeleteList list_id => ("DELETE", "lists/" +:+ pretty list_id)
  end.

(** What a call does with the decoded body the shared routine returns. *)
Definition post_process (c : Call) (response : PyVal) : M PyVal :=
  if unwraps c then py_get response "data" response else ret response.

(** Keyword arguments that override the timeout for one call. *)
Definition short_timeout : Kwargs :=
  {| kw_json := None; kw_params := None; kw_timeout := Some 5 |}.

(** A network on which every connection is refused. *)
Definition refuses : Request -> Reply :=
  fun _ => Failure NetConnectionError "Connection refused".

(** A success without a body. *)
Definition no_content : Response.t :=
  {| Response.status_code := 204;
     Response.headers := ∅;
     Response.content := "";
     Response.json := inr json_error_text |}.



(** Strings of decimal digits. *)
Definition is_digit (c : ascii) : bool :=
  match Str.digit_of c with Some _ => true | None => false end.

Fixpoint all_digits (s : string) : bool :=
  match s with
  | EmptyString => true
  | String c rest => is_digit c && all_digits rest
  end.

(** A rate-limit answer whose [Retry-After] is the decimal text of [n]. *)
Definition rate_limited_for (n : Z) : Response.t :=
  {| Response.status_code := 429;
     Response.headers := <["retry-after" := pretty n]> ∅;
     Response.content := "";
     Response.json := inr json_error_text |}.

(** The world after a sequence of calls, whether they return or raise. *)
Fixpoint run_calls (net : Request -> Reply) (self : EmailListChecker)
    (cs : list Call) (w : World) : World :=
  match cs with
  | [] => w
  | c :: rest => run_calls net self rest (snd (call net self c w))
  end.

(** * Properties *)

(** ** Stripping slashes *)

Lemma app_cons (c : ascii) (s t : string) : String c s +:+ t = String c (s +:+ t).
Proof. reflexivity. Qed.

Lemma app_empty (t : string) : EmptyString +:+ t = t.
Proof. reflexivity. Qed.

Section Strip.

Variable ch : ascii.

Lemma lstrip_head (s : string) : Str.head (Str.lstrip ch s) ≠ Some ch.
Proof.
  induction s as [|c rest IH]; simpl; [discriminate|].
  destruct (Ascii.eqb c ch) eqn:E; [exact IH|].
  simpl. intros [= ->]. rewrite Ascii.eqb_refl in E. discriminate.
Qed.

Lemma lstrip_split (s : string) :
  ∃ n, s = copies n ch +:+ Str.lstrip ch s.
Proof.
  induction s as [|c rest [n IH]]; simpl.
  - exists O. reflexivity.
  - destruct (Ascii.eqb c ch) eqn:E.
    + apply Ascii.eqb_eq in E as ->. exists (S n).
      simpl copies. rewrite app_cons. f_equal. exact IH.
    + exists O. reflexivity.
Qed.

Lemma rstrip_last (s : string) : Str.last (Str.rstrip ch s) ≠ Some ch.
Proof.
  induction s as [|c rest IH]; simpl; [discriminate|].
  destruct (Str.rstrip ch rest) as [|k kept] eqn:R.
  - destruct (Ascii.eqb c ch) eqn:E; simpl; [discriminate|].
    intros [= ->]. rewrite Ascii.eqb_refl in E. discriminate.
  - exact IH.
Qed.

Lemma rstrip_split (s : string) :
  ∃ n, s = Str.rstrip ch s +:+ copies n ch.
Proof.
  induction s as [|c rest [n IH]]; simpl.
  - exists O. reflexivity.
  - destruct (Str.rstrip ch rest) as [|k kept] eqn:R.
    + destruct (Ascii.eqb c ch) eqn:E.
      * apply Ascii.eqb_eq in E as ->. exists (S n).
        rewrite app_empty in *. simpl copies. f_equal. exact IH.
      * exists n. rewrite app_cons. f_equal. exact IH.
    + exists n. rewrite app_cons. f_equal. exact IH.
Qed.

Lemma rstrip_copies (n : nat) : Str.rstrip ch (copies n ch) = EmptyString.
Proof.
  induction n as [|n IH]; simpl; [reflexivity|].
  rewrite IH, Ascii.eqb_refl. reflexivity.
Qed.

(** Trailing copies of the character do not change the result. *)
Lemma rstrip_app_copies (s : string) (n : nat) :
  Str.rstrip ch (s +:+ copies n ch) = Str.rstrip ch s.
Proof.
  induction s as [|c rest IH].
  - rewrite app_empty. simpl. apply rstrip_copies.
  - rewrite app_cons. simpl. rewrite IH. reflexivity.
Qed.

End Strip.

(** ** How computations move the world *)

Lemma steps_bind {A B} (m : M A) (k : A -> M B) f :
  steps m f → (∀ a, pure (k a)) → steps (bind m k) f.
Proof.
  intros Hm Hk w. unfold bind. specialize (Hm w).
  destruct (m w) as [[a|e] w']; simpl in *; [|exact Hm].
  rewrite Hk. exact Hm.
Qed.

Lemma pure_bind {A B} (m : M A) (k : A -> M B) :
  pure m → (∀ a, pure (k a)) → pure (bind m k).
Proof. intros Hm Hk. apply steps_bind; assumption. Qed.

Lemma pure_ret {A} (a : A) : pure (ret a).
Proof. intros w. reflexivity. Qed.

Lemma pure_raise {A} (e : PyExn) : pure (raise (A:=A) e).
Proof. intros w. reflexivity. Qed.

Lemma pure_py_get v k d : pure (py_get v k d).
Proof. destruct v; intros w; reflexivity. Qed.

Lemma pure_py_int x : pure (py_int x).
Proof.
  destruct x as [s|n]; simpl; [destruct (Str.to_int s)|]; intros w; reflexivity.
Qed.

Lemma pure_response_json r : pure (response_json r).
Proof. unfold response_json. destruct (Response.json r); intros w; reflexivity. Qed.

Lemma pure_json_or r v : pure (json_or r v).
Proof.
  unfold json_or. destruct (truthy_bytes _); [apply pure_response_json | apply pure_ret].
Qed.

Lemma pure_if {A} (b : bool) (m1 m2 : M A) :
  pure m1 → pure m2 → pure (if b then m1 else m2).
Proof. destruct b; auto. Qed.

Lemma steps_send net req : steps (send net req) (log_request req).
Proof. intros w. unfold send. destruct (net req); reflexivity. Qed.

Lemma steps_try_except {A} (body : M A) clauses f :
  steps body f →
  Forall (λ c, ∀ e, pure (c.2 e)) clauses →
  steps (try_except body clauses) f.
Proof.
  intros Hb Hc w. unfold try_except. specialize (Hb w).
  destruct (body w) as [[a|e] w']; simpl in *; [exact Hb|].
  rewrite <- Hb. clear Hb.
  induction Hc as [|[cls h] rest Hh _ IH]; simpl; [reflexivity|].
  destruct (isinstance e cls); [apply Hh | exact IH].
Qed.

Create HintDb pure_db.
#[local] Hint Resolve pure_ret pure_raise pure_py_get pure_py_int
  pure_response_json pure_json_or : pure_db.

Ltac pure_steps :=
  repeat first
    [ solve [auto with pure_db]
    | apply pure_bind; [|intros ?]
    | apply pure_if ].

(** Whatever the network does, [_request] puts exactly one request on the
    wire and touches nothing else. *)
Lemma steps_request net self method endpoint kw :
  steps (_request net self method endpoint kw)
        (log_request (session_request_of self method (request_url self endpoint) kw)).
Proof.
  unfold _request. apply steps_try_except.
  - apply steps_bind; [apply steps_send|].
    intros r. cbv zeta. pure_steps.
  - repeat constructor; intros e; simpl; pure_steps.
Qed.

(** ** Reading the body *)

Lemma json_or_decoded r fallback v w :
  body_of r fallback = Some v → json_or r fallback w = (Return v, w).
Proof.
  unfold body_of, json_or, response_json.
  destruct (truthy_bytes _); [destruct (Response.json r)|]; intros [= <-]; reflexivity.
Qed.

Lemma json_or_undecodable r fallback w :
  body_of r fallback = None →
  ∃ text, Response.json r = inr text ∧
          json_or r fallback w = (Raise (LibExn JSONDecodeError text), w).
Proof.
  unfold body_of, json_or, response_json.
  destruct (truthy_bytes _); [destruct (Response.json r) as [v|text]|]; intros [=].
  exists text. split; reflexivity.
Qed.

Ltac status_cases :=
  repeat match goal with
         | |- context [Z.eqb ?a ?b] => destruct (Z.eqb_spec a b); try lia
         | |- context [Z.leb ?a ?b] => destruct (Z.leb_spec a b); try lia
         | |- context [Z.ltb ?a ?b] => destruct (Z.ltb_spec a b); try lia
         end.

(** ** The paths through [_request] *)

Section Paths.

Variable net : Request -> Reply.
Variable self : EmailListChecker.
Variables (method endpoint : string) (kw : Kwargs) (w : World).

Let req := session_request_of self method (request_url self endpoint) kw.
Let out := fst (_request net self method endpoint kw w).

(** A transport failure becomes an error of the base class. *)
Lemma request_failure f text :
  net req = Failure f text →
  out = Raise (SdkExn EmailListCheckerException
                 (PStr (transport_message self f text)) None PNone).
Proof.
  intros H. subst out. unfold _request, try_except, bind, send.
  fold req. rewrite H. destruct f; reflexivity.
Qed.

Lemma request_rate_limited r n b :
  net req = Answer r → Response.status_code r = 429 →
  retry_after_of r = Some n → body_of r PNone = Some b →
  out = Raise (SdkExn RateLimitError
                 (PStr ("Rate limit exceeded. Retry after " +:+ pretty n +:+ " seconds"))
                 (Some 429) b).
Proof.
  intros H Hs Hn Hb. subst out. unfold _request, try_except, bind, send.
  fold req. rewrite H, Hs. simpl.
  unfold retry_after_of in Hn.
  destruct (Response.header r "Retry-After") as [t|]; simpl.
  - rewrite Hn. simpl. rewrite (json_or_decoded _ _ _ _ Hb). reflexivity.
  - injection Hn as <-. rewrite (json_or_decoded _ _ _ _ Hb). reflexivity.
Qed.

(** A [Retry-After] that is not an integer: the [ValueError] of [int()]
    leaves the routine as it is. *)
Lemma request_rate_limited_bad_header r text :
  net req = Answer r → Response.status_code r = 429 →
  Response.header r "Retry-After" = Some text → Str.to_int text = None →
  out = Raise (LibExn ValueError
                 ("invalid literal for int() with base 10: '" +:+ text +:+ "'")).
Proof.
  intros H Hs Hh Hn. subst out. unfold _request, try_except, bind, send.
  fold req. rewrite H, Hs. simpl. rewrite Hh. simpl. rewrite Hn. reflexivity.
Qed.

(** A 429 whose body cannot be decoded. *)
Lemma request_rate_limited_undecodable r n :
  net req = Answer r → Response.status_code r = 429 →
  retry_after_of r = Some n → body_of r PNone = None →
  ∃ text, Response.json r = inr text ∧
    out = Raise (SdkExn EmailListCheckerException
                   (PStr ("Request failed: " +:+ text)) None PNone).
Proof.
  intros H Hs Hn Hb.
  destruct (json_or_undecodable r PNone (log_request req w) Hb) as (text & Hj & Hrun).
  exists text. split; [exact Hj|].
  subst out. unfold _request, try_except, bind, send.
  fold req. rewrite H, Hs. simpl.
  unfold retry_after_of in Hn.
  destruct (Response.header r "Retry-After") as [t|]; simpl.
  - rewrite Hn. simpl. rewrite Hrun. reflexivity.
  - rewrite Hrun. reflexivity.
Qed.

(** Any other status, body empty or decoded to [data]. *)
Lemma request_decoded r data :
  net req = Answer r → Response.status_code r ≠ 429 →
  body_of r (PDict ∅) = Some data →
  let s := Response.status_code r in
  out =
    if s =? 401 then fail_with AuthenticationError 401 data "error" (PStr "Invalid API key")
    else if s =? 402 then
      fail_with InsufficientCreditsError 402 data "error" (PStr "Insufficient credits")
    else if s =? 422 then
      fail_with ValidationError 422 data "message" (PStr "Validation error")
    else if negb (Response.ok r) then
      fail_with APIError s data "error" (PStr ("API error: " +:+ pretty s))
    else Return data.
Proof.
  intros H Hs Hb. subst out. unfold _request, try_except, bind, send.
  fold req. rewrite H.
  destruct (Z.eqb_spec (Response.status_code r) 429) as [|_]; [contradiction|].
  rewrite (json_or_decoded _ _ _ _ Hb). cbv zeta.
  repeat (destruct (_ =? _); [destruct data; reflexivity|]).
  destruct (negb _); [destruct data|]; reflexivity.
Qed.

(** Any other status, body not decodable. *)
Lemma request_undecodable r :
  net req = Answer r → Response.status_code r ≠ 429 →
  body_of r (PDict ∅) = None →
  ∃ text, Response.json r = inr text ∧
    out = Raise (SdkExn EmailListCheckerException
                   (PStr ("Request failed: " +:+ text)) None PNone).
Proof.
  intros H Hs Hb.
  destruct (json_or_undecodable r (PDict ∅) (log_request req w) Hb) as (text & Hj & Hrun).
  exists text. split; [exact Hj|].
  subst out. unfold _request, try_except, bind, send.
  fold req. rewrite H.
  destruct (Z.eqb_spec (Response.status_code r) 429) as [|_]; [contradiction|].
  rewrite Hrun. reflexivity.
Qed.

End Paths.

(** ** Status classification in the shared routine *)




(** ** The retry-after value of a rate-limit error *)




(** ** Timeouts *)




(** ** What the shared routine can raise *)

(** A call the HTTP library rejects leaves the routine as the library's
    [ValueError]. *)
Lemma request_rejected net self method endpoint kw w text :
  net (session_request_of self method (request_url self endpoint) kw) = Rejected text →
  _request net self method endpoint kw w
  = (Raise (LibExn ValueError text),
     log_request (session_request_of self method (request_url self endpoint) kw) w).
Proof.
  intros Hnet. unfold _request, try_except, bind, send. rewrite Hnet. reflexivity.
Qed.

(** With a library that validates the timeout, a client configured with a
    timeout of zero or less gets the library's [ValueError] from every use
    of the shared routine that does not override it. *)
Lemma request_with_bad_timeout net self method endpoint kw w :
  validates_timeout net →
  timeout self ≤ 0 →
  kw_timeout kw = None →
  ∃ text, fst (_request net self method endpoint kw w) = Raise (LibExn ValueError text).
Proof.
  intros Hnet Ht Hkw.
  destruct (Hnet (session_request_of self method (request_url self endpoint) kw))
    as [text Hr].
  - simpl. rewrite Hkw. exact Ht.
  - exists text. rewrite (request_rejected _ _ _ _ _ w _ Hr). reflexivity.
Qed.

(** C10, on the code.  Each of the five typed errors is a subclass of
    [EmailListCheckerException], and every error built by the constructor
    has the message it was given and a status code and a response that are
    [None] when they are not passed.  But a clause on the base class does
    not catch everything the shared routine raises: on a 429 whose
    [Retry-After] is an HTTP date the [ValueError] of [int()] leaves the
    routine, and on a 500 whose body is a JSON array the [AttributeError]
    of [.get] does; neither is an instance of the base class. *)
Theorem C10_base_clause_misses_runtime_errors :
  (∀ cls, issubclass (Sdk cls) (Sdk EmailListCheckerException) = true)
  ∧ (∀ cls message status response,
       exn_message (EmailListCheckerException_init cls message status response)
         = Some message)
  ∧ (∀ cls message,
       let e := EmailListCheckerException_init cls message None None in
       exn_status_code e = Some None ∧ exn_response e = Some PNone)
  ∧ (∃ e, outcome_on rate_limited_http_date = Raise e
          ∧ class_of e = ValueError
          ∧ isinstance e (Sdk EmailListCheckerException) = false)
  ∧ (∃ e, outcome_on server_error_json_array = Raise e
          ∧ class_of e = AttributeError
          ∧ isinstance e (Sdk EmailListCheckerException) = false).
Proof.
  split; [|split; [|split; [|split]]].
  - intros cls. destruct cls; reflexivity.
  - reflexivity.
  - intros cls message. split; reflexivity.
  - eexists. split; [reflexivity|]. split; reflexivity.
  - eexists. split; [reflexivity|]. split; reflexivity.
Qed.

(** ** Optional fields of the payloads *)

Lemma steps_verify net self email timeout smtp_check :
  ∃ payload,
    steps (verify net self email timeout smtp_check)
          (log_request (session_request_of self "POST" (request_url self "/verify")
                          (json_kwargs payload)))
    ∧ payload !! "timeout" = match timeout with
                              | Some t => if t =? 0 then None else Some (PInt t)
                              | None => None
                              end
    ∧ payload !! "email" = Some (PStr email)
    ∧ payload !! "smtp_check" = Some (PBool smtp_check).
Proof.
  unfold verify. eexists. split.
  - apply steps_bind; [apply steps_request|]. intros a. apply pure_py_get.
  - destruct timeout as [t|]; simpl; [destruct (t =? 0); simpl|]; repeat split; reflexivity.
Qed.

Lemma steps_verify_batch net self emails name callback_url auto_start :
  ∃ payload,
    steps (verify_batch net self emails name callback_url auto_start)
          (log_request (session_request_of self "POST" (request_url self "/verify/batch")
                          (json_kwargs payload)))
    ∧ payload !! "name" = field_of name
    ∧ payload !! "callback_url" = field_of callback_url
    ∧ payload !! "emails" = Some (PList (PStr <$> emails))
    ∧ payload !! "auto_start" = Some (PBool auto_start).
Proof.
  unfold verify_batch. eexists. split.
  - apply steps_bind; [apply steps_request|]. intros a. apply pure_py_get.
  - destruct name as [[|c1 n1]|], callback_url as [[|c2 n2]|]; simpl;
      repeat split; reflexivity.
Qed.

(** C9.  The request [verify] sends has a JSON payload whose [timeout]
    field is the given timeout when that is a non-zero number and is absent
    when it is [None] or 0; the payload [verify_batch] sends has [name] and
    [callback_url] only when they are non-empty strings, and lacks them for
    [None] and for the empty string. *)
Theorem C9_falsy_optionals_omitted net self w :
  (∀ email timeout smtp_check, ∃ payload,
     wire (snd (verify net self email timeout smtp_check w))
       = wire w ++ [session_request_of self "POST" (request_url self "/verify")
                      (json_kwargs payload)]
     ∧ payload !! "timeout" = match timeout with
                               | Some t => if t =? 0 then None else Some (PInt t)
                               | None => None
                               end)
  ∧ (∀ emails name callback_url auto_start, ∃ payload,
       wire (snd (verify_batch net self emails name callback_url auto_start w))
         = wire w ++ [session_request_of self "POST" (request_url self "/verify/batch")
                        (json_kwargs payload)]
       ∧ payload !! "name" = match name with
                              | Some EmptyString | None => None
                              | Some s => Some (PStr s)
                              end
       ∧ payload !! "callback_url" = match callback_url with
                                      | Some EmptyString | None => None
                                      | Some s => Some (PStr s)
                                      end).
Proof.
  split.
  - intros email timeout smtp_check.
    destruct (steps_verify net self email timeout smtp_check) as (payload & Hw & Ht & _).
    exists payload. rewrite Hw. split; [reflexivity | exact Ht].
  - intros emails name callback_url auto_start.
    destruct (steps_verify_batch net self emails name callback_url auto_start)
      as (payload & Hw & Hn & Hc & _).
    exists payload. rewrite Hw. split; [reflexivity|].
    split; [rewrite Hn; destruct name as [[|]|] | rewrite Hc; destruct callback_url as [[|]|]];
      reflexivity.
Qed.

(** ** The file handle of an upload *)

Lemma steps_try_finally {A} (body : M A) (cleanup : M unit) f g :
  steps body f → steps cleanup g → steps (try_finally body cleanup) (g ∘ f).
Proof.
  intros Hb Hc w. unfold try_finally. specialize (Hb w).
  destruct (body w) as [outcome w']. simpl in Hb. subst w'.
  specialize (Hc (f w)). simpl. destruct (cleanup (f w)) as [[u|e] w'']; exact Hc.
Qed.

Lemma steps_py_close h : steps (py_close h) (close_handle h).
Proof. intros w. reflexivity. Qed.

Section Upload.

Variable net : Request -> Reply.
Variable self : EmailListChecker.
Variables (name callback_url : option string) (auto_start : bool).

(** Given a path that opens: open, one request, close, whatever the
    network and the classification do in between. *)
Lemma upload_path_world path w :
  path ∈ disk w →
  let h := fresh (dom (handles w)) in
  ∃ data,
    snd (verify_batch_file net self (inl path) name callback_url auto_start w)
    = close_handle h
        (log_request (upload_request_of self (<["file" := h]> ∅) data)
           (open_handle h w)).
Proof.
  intros Hin h. eexists. unfold verify_batch_file.
  unfold bind at 1. cbv beta iota. unfold bind at 1, py_open.
  rewrite decide_True by exact Hin.
  unfold ret at 1. cbv beta iota. rewrite lookup_insert_eq.
  fold h.
  change ({| wire := wire w; disk := disk w; handles := <[h:=IsOpen]> (handles w) |})
    with (open_handle h w).
  apply (steps_try_finally _ _ (log_request _) (close_handle h)).
  - apply steps_bind; [apply steps_send|]. intros r. cbv zeta. pure_steps.
  - apply steps_py_close.
Qed.

(** Given a path that does not open: [open] raises and nothing else
    happens. *)
Lemma upload_missing_world path w :
  path ∉ disk w →
  verify_batch_file net self (inl path) name callback_url auto_start w
  = (Raise (LibExn FileNotFoundError
              ("[Errno 2] No such file or directory: '" +:+ path +:+ "'")), w).
Proof.
  intros Hin. unfold verify_batch_file.
  unfold bind at 1. cbv beta iota. unfold bind at 1, py_open.
  rewrite decide_False by exact Hin. reflexivity.
Qed.

(** Given a stream: one request, and no handle is touched. *)
Lemma upload_stream_world f w :
  ∃ data,
    snd (verify_batch_file net self (inr f) name callback_url auto_start w)
    = log_request (upload_request_of self (<["file" := f]> ∅) data) w.
Proof.
  eexists. unfold verify_batch_file. unfold bind at 1. cbv beta iota.
  unfold ret at 1. cbv beta iota.
  apply (steps_try_finally _ _ (log_request _) id).
  - apply steps_bind; [apply steps_send|]. intros r. cbv zeta. pure_steps.
  - apply pure_ret.
Qed.

End Upload.

(** C8.  Given a path, [verify_batch_file] opens a file of its own (a handle
    that did not exist before), sends it in its one request, and leaves it
    closed, whatever the network answers or raises and however the response
    is classified; when the path cannot be opened nothing happens at all.
    Given a stream, it sends that stream and changes the state of no handle:
    the stream is not closed. *)
Theorem C8_opened_file_is_closed net self name callback_url auto_start w :
  (∀ path,
     let h := fresh (dom (handles w)) in
     let w' := snd (verify_batch_file net self (inl path) name callback_url auto_start w) in
     handles w !! h = None
     ∧ (path ∈ disk w →
        handles w' = <[h := IsClosed]> (handles w)
        ∧ ∃ data, wire w' = wire w ++ [upload_request_of self (<["file" := h]> ∅) data])
     ∧ (path ∉ disk w → w' = w))
  ∧ (∀ f,
       let w' := snd (verify_batch_file net self (inr f) name callback_url auto_start w) in
       handles w' = handles w
       ∧ ∃ data, wire w' = wire w ++ [upload_request_of self (<["file" := f]> ∅) data]).
Proof.
  split.
  - intros path h w'. split; [|split].
    + apply not_elem_of_dom. apply is_fresh.
    + intros Hin.
      destruct (upload_path_world net self name callback_url auto_start path w Hin)
        as [data Hw].
      subst w'. fold h in Hw. rewrite Hw. simpl. split.
      * apply insert_insert_eq.
      * exists data. reflexivity.
    + intros Hin. subst w'.
      rewrite (upload_missing_world net self name callback_url auto_start path w Hin).
      reflexivity.
  - intros f w'.
    destruct (upload_stream_world net self name callback_url auto_start f w) as [data Hw].
    subst w'. rewrite Hw. split; [reflexivity|]. exists data. reflexivity.
Qed.

(** ** Unwrapping the envelope *)

Lemma request_success net self method endpoint kw w r v :
  net (session_request_of self method (request_url self endpoint) kw) = Answer r →
  Response.ok r = true →
  body_of r (PDict ∅) = Some v →
  _request net self method endpoint kw w
  = (Return v, log_request (session_request_of self method (request_url self endpoint) kw) w).
Proof.
  intros Hnet Hok Hb.
  rewrite (surjective_pairing (_request net self method endpoint kw w)).
  f_equal; [|apply steps_request].
  unfold Response.ok in Hok. apply negb_true_iff, andb_false_iff in Hok.
  rewrite Z.leb_gt, Z.ltb_ge in Hok.
  assert (Hs : Response.status_code r ≠ 429) by lia.
  rewrite (request_decoded _ _ _ _ _ w _ _ Hnet Hs Hb).
  unfold Response.ok. status_cases; reflexivity.
Qed.

Lemma upload_success net self file name callback_url auto_start w r v :
  (∀ req, net req = Answer r) →
  Response.ok r = true →
  body_of r (PDict ∅) = Some v →
  openable (VerifyBatchFile file name callback_url auto_start) w →
  fst (verify_batch_file net self file name callback_url auto_start w)
  = fst (py_get v "data" v w).
Proof.
  intros Hnet Hok Hb Hopen.
  unfold Response.ok in Hok. apply negb_true_iff, andb_false_iff in Hok.
  rewrite Z.leb_gt, Z.ltb_ge in Hok.
  unfold verify_batch_file. unfold bind at 1. cbv beta iota.
  destruct file as [path|f].
  - simpl in Hopen. unfold bind at 1, py_open. rewrite decide_True by exact Hopen.
    unfold ret at 1. cbv beta iota. rewrite lookup_insert_eq.
    unfold try_finally, bind, send. rewrite Hnet.
    rewrite (json_or_decoded _ _ _ _ Hb). unfold Response.ok.
    status_cases; destruct v; reflexivity.
  - unfold ret at 1. cbv beta iota.
    unfold try_finally, bind, send. rewrite Hnet.
    rewrite (json_or_decoded _ _ _ _ Hb). unfold Response.ok.
    status_cases; destruct v; reflexivity.
Qed.

Ltac through_request Hnet Hok Hb :=
  unfold bind; rewrite (request_success _ _ _ _ _ _ _ _ (Hnet _) Hok Hb).

(** C2, as amended.  For every successful response whose body is empty or
    decodes to a JSON object, every public call returns the [data] field of
    the decoded body when it has one and the whole decoded body otherwise,
    except [delete_list] and [get_batch_results] with a format other than
    ["json"], which return the decoded body as it is (whatever JSON value it
    is). *)
Theorem C2_unwrapping net self c w r :
  (∀ req, net req = Answer r) →
  Response.ok r = true →
  openable c w →
  (∀ d, body_of r (PDict ∅) = Some (PDict d) →
     fst (call net self c w)
     = Return (if unwraps c then default (PDict d) (d !! "data") else PDict d))
  ∧ (∀ v, body_of r (PDict ∅) = Some v → unwraps c = false →
       fst (call net self c w) = Return v).
Proof.
  intros Hnet Hok Hopen. split.
  - intros d Hb. destruct c; simpl;
      try (unfold verify, verify_batch, get_batch_status, find_email, find_by_domain,
             find_by_company, get_credits, get_usage, get_lists, delete_list;
           through_request Hnet Hok Hb; reflexivity).
    + rewrite (upload_success _ _ _ _ _ _ _ _ _ Hnet Hok Hb Hopen). reflexivity.
    + unfold get_batch_results. through_request Hnet Hok Hb.
      destruct (String.eqb format "json"); reflexivity.
  - intros v Hb Hu. destruct c; simpl in Hu; try discriminate; simpl.
    + unfold get_batch_results. through_request Hnet Hok Hb. rewrite Hu. reflexivity.
    + unfold delete_list. rewrite (request_success _ _ _ _ _ _ _ _ (Hnet _) Hok Hb).
      reflexivity.
Qed.

Lemma C2_unwrapping_witness :
  fst (call (always ok_wrapped) client0 (Verify "a@x.com" None true) world0)
  = Return (PList [PStr "a@x.com"]).
Proof.
  destruct (C2_unwrapping (always ok_wrapped) client0 (Verify "a@x.com" None true)
              world0 ok_wrapped (fun _ => eq_refl) eq_refl I) as [Hobj _].
  exact (Hobj _ eq_refl).
Defined.

(** C2, as the specification states it, fails twice: [get_batch_results]
    with format ["csv"] returns a body that has a [data] field whole, and
    [get_lists] on a body that is a JSON array raises [AttributeError]
    instead of returning the array. *)
Lemma C2_every_call_counterexample :
  (fst (call (always ok_wrapped) client0 (GetBatchResults 7 "csv" "all") world0)
     = Return wrapped_addresses
   ∧ ¬ unwrapped_as_claimed (GetBatchResults 7 "csv" "all") wrapped_addresses
         (fst (call (always ok_wrapped) client0 (GetBatchResults 7 "csv" "all") world0)))
  ∧ (fst (call (always ok_bare_list) client0 GetLists world0)
       = Raise (LibExn AttributeError "'list' object has no attribute 'get'")
     ∧ ¬ unwrapped_as_claimed GetLists (PList [])
           (fst (call (always ok_bare_list) client0 GetLists world0))).
Proof.
  repeat split; try reflexivity.
  - intros H. vm_compute in H. discriminate H.
  - intros H. vm_compute in H. discriminate H.
Qed.

(** ** The upload path against the shared routine *)

(** C3, on the code.  [verify_batch_file] has no branch for 429 and no
    [except] clause: a 429 without a body comes out as an [APIError] with
    the message "API error: 429", whatever its headers, where the shared
    routine raises [RateLimitError]; and a failure of the transport comes
    out as the HTTP library's own exception, where the shared routine raises
    the base error. *)
Theorem C3_upload_has_no_rate_limit_or_transport_clause :
  (∀ self f name callback_url auto_start w headers json,
     fst (verify_batch_file (always (empty_429 headers json)) self (inr f)
            name callback_url auto_start w)
     = Raise (SdkExn APIError (PStr "API error: 429") (Some 429) (PDict ∅)))
  ∧ outcome_on rate_limited_120
    = Raise (SdkExn RateLimitError
               (PStr "Rate limit exceeded. Retry after 120 seconds") (Some 429) PNone)
  ∧ (∀ self f name callback_url auto_start w failure text,
       fst (verify_batch_file (fun _ => Failure failure text) self (inr f)
              name callback_url auto_start w)
       = Raise (LibExn (failure_class failure) text))
  ∧ fst (_request never_answers client0 "GET" "/credits" no_kwargs world0)
    = Raise (SdkExn EmailListCheckerException
               (PStr "Request timeout after 30 seconds") None PNone).
Proof.
  repeat split; reflexivity.
Qed.

(** ** Results in a text format *)

(** C5, on the code.  [get_batch_results] with a format other than ["json"]
    returns what the shared routine returns, and that routine decodes every
    non-empty body as JSON: a CSV body ends in the base error "Request
    failed: ..." and is not returned as text. *)
Theorem C5_text_formats_are_json_decoded :
  fst (get_batch_results (always csv_results) client0 7 "csv" "all" world0)
  = Raise (SdkExn EmailListCheckerException
             (PStr "Request failed: Expecting value: line 1 column 1 (char 0)")
             None PNone)
  ∧ (∀ net self batch_id format filter w,
       String.eqb format "json" = false →
       get_batch_results net self batch_id format filter w
       = _request net self "GET" ("/verify/batch/" +:+ pretty batch_id +:+ "/results")
           (params_kwargs (<["filter" := PStr filter]> (<["format" := PStr format]> ∅))) w).
Proof.
  split; [reflexivity|].
  intros net self batch_id format filter w Hf.
  unfold get_batch_results, bind. rewrite Hf.
  destruct (_request _ _ _ _ _ w) as [[v|e] w']; reflexivity.
Qed.

(** * Further properties of the client *)

(** ** One request per call, on its route *)

Lemma bind_ret_r {A} (m : M A) w : bind m ret w = m w.
Proof. unfold bind, ret. destruct (m w) as [[a|e] w']; reflexivity. Qed.

(** Every call but the upload is the shared routine on its route, followed
    by the unwrapping. *)
Lemma call_factors net self c :
  uses_shared_routine c = true →
  ∃ kw, kw_timeout kw = None
        ∧ (is_Some (kw_json kw) ↔ (route c).1 = "POST")
        ∧ ∀ w, call net self c w
               = bind (_request net self (route c).1 ("/" +:+ (route c).2) kw)
                      (post_process c) w.
Proof.
  intros Hc. destruct c; simpl in Hc; try discriminate; simpl;
    unfold verify, verify_batch, get_batch_status, get_batch_results, find_email,
      find_by_domain, find_by_company, get_credits, get_usage, get_lists, delete_list,
      post_process; simpl;
    eexists; (split; [|split]);
    try (intros w; first [reflexivity | symmetry; apply bind_ret_r]);
    try reflexivity;
    try (split; [reflexivity | intros _; eexists; reflexivity]);
    try (split; [intros [x Hx]; discriminate Hx | intros Hx; discriminate Hx]).
Qed.

Lemma pure_post_process c response : pure (post_process c response).
Proof. unfold post_process. destruct (unwraps c); auto with pure_db. Qed.

Lemma route_url self c :
  request_url self ("/" +:+ (route c).2) = base_url self +:+ "/" +:+ (route c).2.
Proof. unfold request_url. destruct c; reflexivity. Qed.

(** X1.  Every call but the upload sends exactly one request, whatever the
    network does with it, and changes nothing else in the world.  The
    request has the method and the URL of the call's route (base URL, one
    slash, path), the headers of the session and the configured timeout (no
    method overrides it); it has a JSON body exactly when the method is
    POST, and never form data or files. *)
Theorem call_sends_one_routed_request net self c w :
  uses_shared_routine c = true →
  ∃ req,
    snd (call net self c w) = log_request req w
    ∧ req_method req = (route c).1
    ∧ req_url req = base_url self +:+ "/" +:+ (route c).2
    ∧ req_headers req = session_headers self
    ∧ req_timeout req = timeout self
    ∧ (is_Some (req_json req) ↔ (route c).1 = "POST")
    ∧ req_data req = None
    ∧ req_files req = ∅.
Proof.
  intros Hc. destruct (call_factors net self c Hc) as (kw & Ht & Hj & Hcall).
  exists (session_request_of self (route c).1 (request_url self ("/" +:+ (route c).2)) kw).
  split; [|repeat split].
  - rewrite Hcall.
    apply (steps_bind _ _ _ (steps_request net self _ _ kw)).
    intros response. apply pure_post_process.
  - apply route_url.
  - simpl. rewrite Ht. reflexivity.
  - apply Hj.
  - apply Hj.
Qed.

Lemma call_sends_one_routed_request_witness :
  ∃ req,
    snd (call never_answers client0 (GetBatchStatus 42) world0) = log_request req world0
    ∧ req_method req = "GET"
    ∧ req_url req = "https://platform.emaillistchecker.io/api/v1/verify/batch/42".
Proof.
  destruct (call_sends_one_routed_request never_answers client0 (GetBatchStatus 42)
              world0 eq_refl) as (req & Hw & Hm & Hu & _).
  exists req. repeat split; assumption.
Defined.

(** ** The request of an upload *)



(** ** Transport failures *)

(** X3.  A timeout passed to the shared routine for one call is the timeout
    of the request it sends, yet when the HTTP library raises its [Timeout]
    for that request the message of the error still names the timeout the
    client was configured with, not the one passed. *)
Theorem timeout_override_sent_not_reported net self method endpoint kw w t text :
  kw_timeout kw = Some t →
  net (session_request_of self method (request_url self endpoint) kw)
    = Failure NetTimeout text →
  ∃ req,
    _request net self method endpoint kw w
    = (Raise (SdkExn EmailListCheckerException
                (PStr ("Request timeout after " +:+ pretty (timeout self) +:+ " seconds"))
                None PNone),
       log_request req w)
    ∧ req_timeout req = t.
Proof.
  intros Ht Hnet. eexists. split.
  - rewrite (surjective_pairing (_request net self method endpoint kw w)).
    f_equal; [exact (request_failure _ _ _ _ _ _ _ _ Hnet) | apply steps_request].
  - simpl. rewrite Ht. reflexivity.
Qed.

Lemma timeout_override_sent_not_reported_witness :
  ∃ req,
    _request never_answers client0 "GET" "/credits" short_timeout world0
    = (Raise (SdkExn EmailListCheckerException
                (PStr "Request timeout after 30 seconds") None PNone),
       log_request req world0)
    ∧ req_timeout req = 5.
Proof.
  exact (timeout_override_sent_not_reported never_answers client0 "GET" "/credits"
           short_timeout world0 5 _ eq_refl eq_refl).
Defined.

(** X4.  A transport failure other than a timeout (a refused connection, any
    other [RequestException]) leaves the shared routine as the base error
    with the message "Request failed: " followed by the text of the
    failure, after exactly one request. *)
Theorem transport_failure_wrapped net self method endpoint kw w failure text :
  failure ≠ NetTimeout →
  net (session_request_of self method (request_url self endpoint) kw)
    = Failure failure text →
  _request net self method endpoint kw w
  = (Raise (SdkExn EmailListCheckerException (PStr ("Request failed: " +:+ text))
              None PNone),
     log_request (session_request_of self method (request_url self endpoint) kw) w).
Proof.
  intros Hf Hnet.
  rewrite (surjective_pairing (_request net self method endpoint kw w)).
  f_equal; [|apply steps_request].
  rewrite (request_failure _ _ _ _ _ _ _ _ Hnet).
  destruct failure; [contradiction| |]; reflexivity.
Qed.

Lemma transport_failure_wrapped_witness :
  fst (_request refuses client0 "GET" "/credits" no_kwargs world0)
  = Raise (SdkExn EmailListCheckerException (PStr "Request failed: Connection refused")
             None PNone).
Proof.
  rewrite (transport_failure_wrapped refuses client0 "GET" "/credits" no_kwargs world0
             NetConnectionError "Connection refused"); [reflexivity|discriminate|reflexivity].
Defined.

(** ** What an SDK error of the shared routine carries *)

(** X5.  An SDK error the shared routine raises on an answered request is of
    one of three kinds: the base error "Request failed: ..." of a body that
    cannot be decoded, with no status code and no response; a
    [RateLimitError] with status code 429 and the decoded body (or [None]
    for an empty one); or another typed error, whose status code is the
    status of the response and whose response is the decoded body, a JSON
    object, unaltered.  [APIError] is the class exactly for the statuses
    other than 401, 402 and 422. *)
Theorem sdk_error_carries_status_and_body net self method endpoint kw w r cls m st b :
  net (session_request_of self method (request_url self endpoint) kw) = Answer r →
  fst (_request net self method endpoint kw w) = Raise (SdkExn cls m st b) →
  (cls = EmailListCheckerException ∧ st = None ∧ b = PNone
   ∧ ∃ text, Response.json r = inr text ∧ m = PStr ("Request failed: " +:+ text))
  ∨ (cls = RateLimitError ∧ Response.status_code r = 429 ∧ st = Some 429
     ∧ body_of r PNone = Some b)
  ∨ (cls ≠ EmailListCheckerException ∧ cls ≠ RateLimitError
     ∧ Response.status_code r ≠ 429
     ∧ st = Some (Response.status_code r)
     ∧ body_of r (PDict ∅) = Some b ∧ is_dict b = true
     ∧ (cls = APIError ↔ Response.status_code r ∉ [401; 402; 422])).
Proof.
  intros Hnet Hout.
  destruct (decide (Response.status_code r = 429)) as [Hs|Hs].
  - destruct (retry_after_of r) as [n|] eqn:Hn.
    + destruct (body_of r PNone) as [b'|] eqn:Hb.
      * rewrite (request_rate_limited _ _ _ _ _ w _ _ _ Hnet Hs Hn Hb) in Hout.
        injection Hout as <- <- <- <-. right. left. repeat split; assumption.
      * destruct (request_rate_limited_undecodable _ _ _ _ _ w _ _ Hnet Hs Hn Hb)
          as (text & Hj & Hrun).
        rewrite Hrun in Hout. injection Hout as <- <- <- <-.
        left. repeat split. exists text. split; [exact Hj | reflexivity].
    + unfold retry_after_of in Hn.
      destruct (Response.header r "Retry-After") as [text|] eqn:Hh; [|discriminate].
      rewrite (request_rate_limited_bad_header _ _ _ _ _ w _ _ Hnet Hs Hh Hn) in Hout.
      discriminate Hout.
  - destruct (body_of r (PDict ∅)) as [data|] eqn:Hb.
    + pose proof (request_decoded _ _ _ _ _ w _ _ Hnet Hs Hb) as Hdec.
      cbv zeta in Hdec. rewrite Hdec in Hout. clear Hdec.
      right. right.
      destruct (Z.eqb_spec (Response.status_code r) 401) as [E|N1].
      { destruct data; simpl in Hout; try discriminate Hout.
        injection Hout as <- <- <- <-. rewrite E.
        repeat split; try discriminate; try reflexivity; try assumption.
        intros Hin. exfalso. apply Hin. set_solver. }
      destruct (Z.eqb_spec (Response.status_code r) 402) as [E|N2].
      { destruct data; simpl in Hout; try discriminate Hout.
        injection Hout as <- <- <- <-. rewrite E.
        repeat split; try discriminate; try reflexivity; try assumption.
        intros Hin. exfalso. apply Hin. set_solver. }
      destruct (Z.eqb_spec (Response.status_code r) 422) as [E|N3].
      { destruct data; simpl in Hout; try discriminate Hout.
        injection Hout as <- <- <- <-. rewrite E.
        repeat split; try discriminate; try reflexivity; try assumption.
        intros Hin. exfalso. apply Hin. set_solver. }
      destruct (negb (Response.ok r)); [|discriminate Hout].
      destruct data; simpl in Hout; try discriminate Hout.
      injection Hout as <- <- <- <-.
      repeat split; try discriminate; try reflexivity; try assumption.
      intros _ Hin.
      repeat (apply elem_of_cons in Hin as [Hin|Hin]; [contradiction|]).
      apply elem_of_nil in Hin. exact Hin.
    + destruct (request_undecodable _ _ _ _ _ w _ Hnet Hs Hb) as (text & Hj & Hrun).
      rewrite Hrun in Hout. injection Hout as <- <- <- <-.
      left. repeat split. exists text. split; [exact Hj | reflexivity].
Qed.

Lemma sdk_error_carries_status_and_body_witness :
  Some 503 = Some (Response.status_code server_error_named)
  ∧ is_dict (PDict (<["error" := PStr "maintenance"]> ∅)) = true.
Proof.
  destruct (sdk_error_carries_status_and_body (always server_error_named) client0
              "GET" "/credits" no_kwargs world0 server_error_named
              APIError (PStr "maintenance") (Some 503)
              (PDict (<["error" := PStr "maintenance"]> ∅)) eq_refl eq_refl)
    as [(H & _)|[(H & _)|(_ & _ & _ & Hst & _ & Hd & _)]];
    [discriminate H | discriminate H | split; assumption].
Defined.

(** ** Bodies at the edges *)

Lemma call_outcome net self c w r v :
  (∀ req, net req = Answer r) →
  Response.ok r = true →
  body_of r (PDict ∅) = Some v →
  openable c w →
  fst (call net self c w) = if unwraps c then fst (py_get v "data" v w) else Return v.
Proof.
  intros Hnet Hok Hb Hopen.
  destruct (uses_shared_routine c) eqn:Hc.
  - destruct (call_factors net self c Hc) as (kw & _ & _ & Hcall).
    rewrite Hcall. unfold bind.
    rewrite (request_success _ _ _ _ _ _ _ _ (Hnet _) Hok Hb).
    unfold post_process. destruct (unwraps c); [destruct v|]; reflexivity.
  - destruct c; try discriminate Hc. simpl.
    exact (upload_success _ _ _ _ _ _ _ _ _ Hnet Hok Hb Hopen).
Qed.

(** X6.  On a successful response without a body every call returns the
    empty dict, [delete_list] and the upload included: the body is not
    decoded and no error is raised. *)
Theorem empty_success_gives_empty_dict net self c w r :
  (∀ req, net req = Answer r) →
  Response.ok r = true →
  Response.content r = EmptyString →
  openable c w →
  fst (call net self c w) = Return (PDict ∅).
Proof.
  intros Hnet Hok Hc Hopen.
  assert (Hb : body_of r (PDict ∅) = Some (PDict ∅))
    by (unfold body_of; rewrite Hc; reflexivity).
  rewrite (call_outcome _ _ _ _ _ _ Hnet Hok Hb Hopen).
  destruct (unwraps c); reflexivity.
Qed.

Lemma empty_success_gives_empty_dict_witness :
  fst (call (always no_content) client0 (DeleteList 7) world0) = Return (PDict ∅).
Proof.
  exact (empty_success_gives_empty_dict (always no_content) client0 (DeleteList 7)
           world0 no_content (fun _ => eq_refl) eq_refl eq_refl I).
Defined.

(** X7.  On a successful response whose body decodes to anything but an
    object (a top-level array, a string, a number, null), every call that
    unwraps raises the [AttributeError] of [.get], which is not an SDK
    error. *)
Theorem unwrap_of_non_object_raises net self c w r v :
  (∀ req, net req = Answer r) →
  Response.ok r = true →
  body_of r (PDict ∅) = Some v →
  is_dict v = false →
  openable c w →
  unwraps c = true →
  fst (call net self c w) = Raise (no_get_method v).
Proof.
  intros Hnet Hok Hb Hd Hopen Hu.
  rewrite (call_outcome _ _ _ _ _ _ Hnet Hok Hb Hopen), Hu.
  destruct v; try reflexivity. discriminate Hd.
Qed.

Lemma unwrap_of_non_object_raises_witness :
  fst (call (always ok_bare_list) client0 GetCredits world0)
  = Raise (LibExn AttributeError "'list' object has no attribute 'get'").
Proof.
  exact (unwrap_of_non_object_raises (always ok_bare_list) client0 GetCredits world0
           ok_bare_list (PList []) (fun _ => eq_refl) eq_refl eq_refl eq_refl I eq_refl).
Defined.

(** ** The upload against its JSON sibling *)

Lemma upload_decoded net self file name callback_url auto_start w r data :
  (∀ req, net req = Answer r) →
  body_of r (PDict ∅) = Some data →
  openable (VerifyBatchFile file name callback_url auto_start) w →
  let s := Response.status_code r in
  fst (verify_batch_file net self file name callback_url auto_start w) =
    if s =? 401 then fail_with AuthenticationError 401 data "error" (PStr "Invalid API key")
    else if s =? 402 then
      fail_with InsufficientCreditsError 402 data "error" (PStr "Insufficient credits")
    else if s =? 422 then
      fail_with ValidationError 422 data "message" (PStr "Validation error")
    else if negb (Response.ok r) then
      fail_with APIError s data "error" (PStr ("API error: " +:+ pretty s))
    else fst (py_get data "data" data w).
Proof.
  intros Hnet Hb Hopen s. subst s.
  unfold verify_batch_file. unfold bind at 1. cbv beta iota.
  destruct file as [path|f].
  - simpl in Hopen. unfold bind at 1, py_open. rewrite decide_True by exact Hopen.
    unfold ret at 1. cbv beta iota. rewrite lookup_insert_eq.
    unfold try_finally, bind, send. rewrite Hnet.
    rewrite (json_or_decoded _ _ _ _ Hb).
    repeat (destruct (_ =? _); [destruct data; reflexivity|]).
    destruct (negb _); destruct data; reflexivity.
  - unfold ret at 1. cbv beta iota.
    unfold try_finally, bind, send. rewrite Hnet.
    rewrite (json_or_decoded _ _ _ _ Hb).
    repeat (destruct (_ =? _); [destruct data; reflexivity|]).
    destruct (negb _); destruct data; reflexivity.
Qed.

(** X8.  For every answer but a 429 whose body is empty or decodes, the
    upload ends exactly as [verify_batch] does on the same answer: the same
    typed error with the same message, status code and response, or the
    same unwrapped result. *)
Theorem upload_agrees_with_batch_off_429 net self file emails name callback_url
    auto_start w w' r data :
  (∀ req, net req = Answer r) →
  Response.status_code r ≠ 429 →
  body_of r (PDict ∅) = Some data →
  openable (VerifyBatchFile file name callback_url auto_start) w →
  fst (verify_batch_file net self file name callback_url auto_start w)
  = fst (verify_batch net self emails name callback_url auto_start w').
Proof.
  intros Hnet Hs Hb Hopen.
  rewrite (upload_decoded _ _ _ _ _ _ _ _ _ Hnet Hb Hopen). cbv zeta.
  unfold verify_batch, bind.
  rewrite (surjective_pairing (_request _ _ _ _ _ w')).
  rewrite (request_decoded _ _ _ _ _ w' _ _ (Hnet _) Hs Hb). cbv zeta.
  repeat (destruct (_ =? _); [destruct data; reflexivity|]).
  destruct (negb _); destruct data; reflexivity.
Qed.

Lemma upload_agrees_with_batch_off_429_witness :
  fst (verify_batch_file (always server_error_named) client0 (inr 3%nat) None None true world0)
  = fst (verify_batch (always server_error_named) client0 ["a@x.com"] None None true world0).
Proof.
  apply (upload_agrees_with_batch_off_429 (always server_error_named) client0 (inr 3%nat)
           ["a@x.com"] None None true world0 world0 server_error_named
           (PDict (<["error" := PStr "maintenance"]> ∅)) (fun _ => eq_refl)).
  - discriminate.
  - reflexivity.
  - exact I.
Defined.

(** ** What the upload can raise *)

Section RaisesOnly.

Context {A B : Type} (P : PyExn -> Prop).






End RaisesOnly.




(** ** Normalising the two halves of the URL *)

Lemma rstrip_fixed ch s : Str.last s ≠ Some ch → Str.rstrip ch s = s.
Proof.
  induction s as [|c rest IH]; [reflexivity|]. intros Hl. simpl.
  destruct rest as [|c' rest'].
  - simpl. destruct (Ascii.eqb_spec c ch) as [->|_]; [|reflexivity].
    exfalso. apply Hl. reflexivity.
  - rewrite IH by exact Hl. reflexivity.
Qed.

Lemma lstrip_copies ch n s : Str.lstrip ch (copies n ch +:+ s) = Str.lstrip ch s.
Proof.
  induction n as [|n IH]; [reflexivity|].
  simpl copies. rewrite app_cons. simpl. rewrite Ascii.eqb_refl. exact IH.
Qed.

(** X10.  Normalising is stable: building a client on the base URL of a
    client gives that client again; leading slashes of an endpoint, however
    many, do not change the URL requested; and neither do trailing slashes
    of the base URL the client was built on. *)
Theorem url_normalisation_stable api_key base timeout :
  let self := __init__ api_key base timeout in
  __init__ api_key (base_url self) timeout = self
  ∧ (∀ n endpoint,
       request_url self (copies n "/" +:+ endpoint) = request_url self endpoint)
  ∧ (∀ api_key' n endpoint,
       request_url (__init__ api_key' (base +:+ copies n "/") timeout) endpoint
       = request_url self endpoint).
Proof.
  intros self. split; [|split].
  - unfold self, __init__. simpl. rewrite rstrip_fixed by apply rstrip_last. reflexivity.
  - intros n endpoint. unfold request_url. rewrite lstrip_copies. reflexivity.
  - intros api_key' n endpoint. unfold request_url, self, __init__. simpl.
    rewrite rstrip_app_copies. reflexivity.
Qed.

(** ** Reading back a printed integer *)

Lemma app_empty_r (s : string) : s +:+ EmptyString = s.
Proof. induction s as [|c s IH]; [reflexivity|]. rewrite app_cons, IH. reflexivity. Qed.

Lemma app_assoc_str (s t u : string) : (s +:+ t) +:+ u = s +:+ (t +:+ u).
Proof. induction s as [|c s IH]; [reflexivity|]. rewrite !app_cons, IH. reflexivity. Qed.

Lemma all_digits_app s t :
  all_digits s = true → all_digits t = true → all_digits (s +:+ t) = true.
Proof.
  induction s as [|c s IH]; [intros _ H; exact H|].
  rewrite app_cons. simpl. intros [Hc Hs]%andb_true_iff Ht.
  rewrite Hc. simpl. apply IH; assumption.
Qed.

Lemma count_digits_app s t :
  Str.count_digits (s +:+ t) = Str.count_digits s + Str.count_digits t.
Proof.
  induction s as [|c s IH]; [reflexivity|].
  rewrite app_cons. simpl. rewrite IH. lia.
Qed.

Lemma digit_char (y : N) :
  (y < 10)%N →
  Str.digit_of (pretty_N_char y) = Some (Z.of_N y)
  ∧ Ascii.eqb (pretty_N_char y) "_" = false.
Proof.
  intros Hy.
  assert (Hc : (y = 0 ∨ y = 1 ∨ y = 2 ∨ y = 3 ∨ y = 4 ∨ y = 5 ∨ y = 6 ∨ y = 7
                ∨ y = 8 ∨ y = 9)%N) by lia.
  repeat (destruct Hc as [->|Hc]; [split; reflexivity|]). subst y. split; reflexivity.
Qed.

Lemma digit_not_special c :
  is_digit c = true →
  Str.is_space c = false ∧ Ascii.eqb c "_" = false
  ∧ Ascii.eqb c "-" = false ∧ Ascii.eqb c "+" = false.
Proof.
  destruct c as [[] [] [] [] [] [] [] []]; vm_compute; intros H;
    first [discriminate H | repeat split].
Qed.

Lemma digits_snoc d : ∀ acc b y s p v,
  (∀ acc b s, Str.digits acc b (d +:+ s) = Str.digits (acc * p + v) true s) →
  (y < 10)%N →
  Str.digits acc b ((d +:+ String (pretty_N_char y) EmptyString) +:+ s)
  = Str.digits (acc * (p * 10) + (v * 10 + Z.of_N y)) true s.
Proof.
  intros acc b y s p v Hd Hy. rewrite app_assoc_str, Hd. rewrite app_cons, app_empty.
  destruct (digit_char y Hy) as [Hdig Hund]. simpl. rewrite Hund, Hdig.
  f_equal. lia.
Qed.

(** The text [str()] prints for a positive number: digits only, read back
    by [Str.digits] as the number, and no more of them than the number
    needs. *)
Lemma pretty_go_digits (x : N) :
  (0 < x)%N →
  ∃ d p, d ≠ EmptyString ∧ all_digits d = true
         ∧ (∀ s, pretty_N_go x s = d +:+ s)
         ∧ (∀ acc b s, Str.digits acc b (d +:+ s) = Str.digits (acc * p + Z.of_N x) true s)
         ∧ 1 ≤ Str.count_digits d
         ∧ 10 ^ (Str.count_digits d - 1) ≤ Z.of_N x.
Proof.
  induction (N.lt_wf_0 x) as [x _ IH]. intros Hx.
  assert (Hy : (x `mod` 10 < 10)%N) by (apply N.mod_lt; lia).
  destruct (digit_char _ Hy) as [Hdig Hund].
  assert (Hx10 : Z.of_N x = Z.of_N (x `div` 10) * 10 + Z.of_N (x `mod` 10)).
  { rewrite (N.div_mod' x 10) at 1. rewrite N2Z.inj_add, N2Z.inj_mul. lia. }
  destruct (decide (x `div` 10 = 0)%N) as [Hz|Hz].
  - exists (String (pretty_N_char (x `mod` 10)) EmptyString), 10. repeat split.
    + discriminate.
    + simpl. unfold is_digit. rewrite Hdig. reflexivity.
    + intros s. rewrite pretty_N_go_step by exact Hx. rewrite Hz, pretty_N_go_0. reflexivity.
    + intros acc b s. rewrite app_cons, app_empty. simpl. rewrite Hund, Hdig.
      f_equal. rewrite Hx10, Hz. lia.
    + simpl. rewrite Hdig. lia.
    + simpl. rewrite Hdig. simpl. lia.
  - destruct (IH (x `div` 10)%N) as (d & p & Hne & Hall & Hgo & Hdigits & Hone & Hpow).
    + apply N.div_lt; lia.
    + apply N.neq_0_lt_0. exact Hz.
    + exists (d +:+ String (pretty_N_char (x `mod` 10)) EmptyString), (p * 10).
      assert (Hcount : Str.count_digits (d +:+ String (pretty_N_char (x `mod` 10)) EmptyString)
                       = Str.count_digits d + 1).
      { rewrite count_digits_app. simpl. rewrite Hdig. lia. }
      repeat split.
      * destruct d; [contradiction|]. rewrite app_cons. discriminate.
      * apply all_digits_app; [exact Hall|]. simpl. unfold is_digit. rewrite Hdig. reflexivity.
      * intros s. rewrite pretty_N_go_step by exact Hx. rewrite Hgo, app_assoc_str. reflexivity.
      * intros acc b s. rewrite (digits_snoc d acc b _ s p _ Hdigits Hy).
        f_equal. rewrite Hx10. lia.
      * rewrite Hcount. lia.
      * rewrite Hcount.
        replace (Str.count_digits d + 1 - 1) with (Z.succ (Str.count_digits d - 1)) by lia.
        rewrite Z.pow_succ_r by lia. rewrite Hx10.
        pose proof (N2Z.is_nonneg (x `mod` 10)). lia.
Qed.

Lemma lstrip_space_digits d : all_digits d = true → Str.lstrip_space d = d.
Proof.
  destruct d as [|c d]; [reflexivity|]. simpl. intros [Hc _]%andb_true_iff.
  destruct (digit_not_special c Hc) as (-> & _). reflexivity.
Qed.

Lemma rstrip_space_digits d : all_digits d = true → Str.rstrip_space d = d.
Proof.
  induction d as [|c d IH]; [reflexivity|]. simpl. intros [Hc Hd]%andb_true_iff.
  rewrite (IH Hd). destruct (digit_not_special c Hc) as (-> & _).
  destruct d; reflexivity.
Qed.

Lemma to_int_unsigned d :
  d ≠ EmptyString → all_digits d = true → Str.to_int d = Str.unsigned d.
Proof.
  intros Hne Hall. unfold Str.to_int.
  rewrite (lstrip_space_digits d Hall), (rstrip_space_digits d Hall).
  destruct d as [|c d]; [contradiction|].
  simpl in Hall. apply andb_true_iff in Hall as [Hc _].
  destruct (digit_not_special c Hc) as (_ & _ & Hm & Hp).
  destruct c as [[] [] [] [] [] [] [] []]; try reflexivity; discriminate.
Qed.

Lemma to_int_negative d :
  d ≠ EmptyString → all_digits d = true →
  Str.to_int ("-" +:+ d) = Z.opp <$> Str.unsigned d.
Proof.
  intros Hne Hall. unfold Str.to_int. rewrite app_cons, app_empty.
  change (Str.lstrip_space (String "-" d)) with (String "-"%char d).
  simpl. rewrite (rstrip_space_digits d Hall).
  destruct d as [|c d]; [contradiction|]. reflexivity.
Qed.

(** Within the limit the digits are read. *)
Lemma unsigned_within_limit d (x : Z) :
  10 ^ (Str.count_digits d - 1) ≤ x → x < 10 ^ Str.max_str_digits →
  Str.unsigned d = Str.digits 0 false d.
Proof.
  intros Hlow Hhigh. unfold Str.unsigned.
  destruct (Z.ltb_spec Str.max_str_digits (Str.count_digits d)) as [Hover|_];
    [|reflexivity].
  exfalso.
  assert (Hmono : 10 ^ Str.max_str_digits ≤ 10 ^ (Str.count_digits d - 1))
    by (apply Z.pow_le_mono_r; lia).
  lia.
Qed.

(** [int(str(n)) == n] for every [n] the interpreter agrees to convert. *)
Lemma to_int_pretty (n : Z) :
  Z.abs n < 10 ^ Str.max_str_digits → Str.to_int (pretty n) = Some n.
Proof.
  intros Hn. destruct n as [|p|p].
  - reflexivity.
  - change (pretty (Z.pos p)) with (pretty_N_go (N.pos p) EmptyString).
    destruct (pretty_go_digits (N.pos p))
      as (d & q & Hne & Hall & Hgo & Hdigits & _ & Hpow); [lia|].
    rewrite Hgo, app_empty_r, (to_int_unsigned d Hne Hall).
    rewrite (unsigned_within_limit d (Z.pos p)) by (first [exact Hpow | exact Hn]).
    rewrite <- (app_empty_r d), Hdigits. simpl. f_equal.
  - change (pretty (Z.neg p)) with ("-" +:+ pretty_N_go (N.pos p) EmptyString).
    destruct (pretty_go_digits (N.pos p))
      as (d & q & Hne & Hall & Hgo & Hdigits & _ & Hpow); [lia|].
    rewrite Hgo, app_empty_r, (to_int_negative d Hne Hall).
    rewrite (unsigned_within_limit d (Z.pos p)) by (first [exact Hpow | exact Hn]).
    rewrite <- (app_empty_r d), Hdigits. simpl. f_equal.
Qed.

(** X11.  [int()] reads back every integer of at most 4300 digits as
    [str()] prints it, so for every such integer [n] a 429 whose
    [Retry-After] is the decimal text of [n] and whose body is empty or
    decodes raises a [RateLimitError] whose message is "Rate limit
    exceeded. Retry after [n] seconds". *)
Theorem retry_after_any_integer net self method endpoint kw w r b (n : Z) :
  Z.abs n < 10 ^ Str.max_str_digits →
  net (session_request_of self method (request_url self endpoint) kw) = Answer r →
  Response.status_code r = 429 →
  Response.header r "Retry-After" = Some (pretty n) →
  body_of r PNone = Some b →
  fst (_request net self method endpoint kw w)
  = Raise (SdkExn RateLimitError
             (PStr ("Rate limit exceeded. Retry after " +:+ pretty n +:+ " seconds"))
             (Some 429) b).
Proof.
  intros Hn Hnet Hs Hh Hb.
  apply (request_rate_limited _ _ _ _ _ _ _ _ _ Hnet Hs); [|exact Hb].
  unfold retry_after_of. rewrite Hh. apply to_int_pretty. exact Hn.
Qed.

Lemma small_number_within_limit : Z.abs 3600 < 10 ^ Str.max_str_digits.
Proof.
  apply Z.lt_le_trans with (10 ^ 4); [reflexivity|].
  apply Z.pow_le_mono_r; [reflexivity|]. unfold Str.max_str_digits. lia.
Qed.

Lemma retry_after_any_integer_witness :
  outcome_on (rate_limited_for 3600)
  = Raise (SdkExn RateLimitError
             (PStr "Rate limit exceeded. Retry after 3600 seconds") (Some 429) PNone).
Proof.
  exact (retry_after_any_integer (always (rate_limited_for 3600)) client0 "GET" "/credits"
           no_kwargs world0 (rate_limited_for 3600) PNone 3600
           small_number_within_limit eq_refl eq_refl eq_refl eq_refl).
Defined.

(** ** Sequences of calls *)

Lemma shared_call_world net self c w :
  uses_shared_routine c = true →
  ∃ req, snd (call net self c w) = log_request req w.
Proof.
  intros Hc. destruct (call_factors net self c Hc) as (kw & _ & _ & Hcall).
  eexists. rewrite Hcall.
  apply (steps_bind _ _ _ (steps_request net self _ _ kw)).
  intros response. apply pure_post_process.
Qed.

Lemma call_world net self c w :
  snd (call net self c w) = w
  ∨ (∃ req, snd (call net self c w) = log_request req w)
  ∨ (∃ req h, handles w !! h = None
              ∧ snd (call net self c w)
                = close_handle h (log_request req (open_handle h w))).
Proof.
  destruct (uses_shared_routine c) eqn:Hc.
  - right. left. apply shared_call_world. exact Hc.
  - destruct c as [| |[path|f] name callback_url auto_start| | | | | | | | |];
      try discriminate Hc. simpl.
    + destruct (decide (path ∈ disk w)) as [Hin|Hin].
      * right. right.
        destruct (upload_path_world net self name callback_url auto_start path w Hin)
          as [data Hw].
        eexists _, _. split; [|exact Hw].
        apply not_elem_of_dom, is_fresh.
      * left. rewrite (upload_missing_world net self name callback_url auto_start path w Hin).
        reflexivity.
    + right. left.
      destruct (upload_stream_world net self name callback_url auto_start f w) as [data Hw].
      eexists. exact Hw.
Qed.

(** X12.  After any sequence of calls, whatever the network does and whether
    the calls return or raise: the disk is as it was, every file handle that
    existed keeps its state (a stream passed in is never closed), every
    handle the calls opened is closed, and the requests sent are those sent
    before followed by at most one per call. *)
Theorem calls_leak_no_open_handle net self cs w :
  let w' := run_calls net self cs w in
  disk w' = disk w
  ∧ (∀ h st, handles w !! h = Some st → handles w' !! h = Some st)
  ∧ (∀ h, handles w' !! h = Some IsOpen → handles w !! h = Some IsOpen)
  ∧ ∃ sent, wire w' = wire w ++ sent ∧ (length sent ≤ length cs)%nat.
Proof.
  revert w. induction cs as [|c rest IH]; intros w; simpl.
  - repeat split; auto. exists []. split; [symmetry; apply app_nil_r | reflexivity].
  - specialize (IH (snd (call net self c w))). simpl in IH.
    destruct IH as (Hd & Hkeep & Hopen & sent & Hw & Hlen).
    destruct (call_world net self c w) as [Hc|[(req & Hc)|(req & h & Hfresh & Hc)]];
      rewrite Hc in *; clear Hc; simpl in *.
    + repeat split; auto. exists sent. split; [exact Hw | lia].
    + repeat split; auto. exists (req :: sent).
      split; [rewrite Hw, <- app_assoc; reflexivity | simpl; lia].
    + rewrite insert_insert_eq in *. repeat split.
      * exact Hd.
      * intros h' st Hh'. apply Hkeep. rewrite lookup_insert_ne; [exact Hh'|].
        intros ->. rewrite Hfresh in Hh'. discriminate Hh'.
      * intros h' Hh'. specialize (Hopen h' Hh').
        destruct (decide (h = h')) as [->|Hne].
        -- rewrite lookup_insert_eq in Hopen. discriminate Hopen.
        -- rewrite lookup_insert_ne in Hopen by exact Hne. exact Hopen.
      * exists (req :: sent).
        split; [rewrite Hw, <- app_assoc; reflexivity | simpl; lia].
Qed.

(** ** The target URL *)

(** The URL of the one request of a call: the base URL of the client, one
    slash, the path of the route. *)
Lemma call_request_url net self c w :
  openable c w →
  ∃ req, wire (snd (call net self c w)) = wire w ++ [req]
         ∧ req_url req = base_url self +:+ "/" +:+ (route c).2.
Proof.
  intros Hopen. destruct (uses_shared_routine c) eqn:Hc.
  - destruct (call_factors net self c Hc) as (kw & _ & _ & Hcall).
    exists (session_request_of self (route c).1
              (request_url self ("/" +:+ (route c).2)) kw).
    split; [|apply route_url].
    assert (Hw : snd (call net self c w)
                 = log_request (session_request_of self (route c).1
                                  (request_url self ("/" +:+ (route c).2)) kw) w).
    { rewrite Hcall.
      apply (steps_bind _ _ _ (steps_request net self _ _ kw)).
      intros response. apply pure_post_process. }
    rewrite Hw. reflexivity.
  - destruct c as [| |[path|f] name callback_url auto_start| | | | | | | | |];
      try discriminate Hc; simpl in *.
    + destruct (upload_path_world net self name callback_url auto_start path w Hopen)
        as [data Hw].
      eexists. rewrite Hw. split; reflexivity.
    + destruct (upload_stream_world net self name callback_url auto_start f w)
        as [data Hw].
      eexists. rewrite Hw. split; reflexivity.
Qed.

Lemma route_no_leading_slash c : Str.head (route c).2 ≠ Some "/"%char.
Proof. destruct c; discriminate. Qed.

(** C6.  A client built on ["https://host/api"] and one built on
    ["https://host/api/"] behave alike in every call, and the one request of
    every call goes, for both, to ["https://host/api/"] followed by the path
    of the call.  More generally trailing slashes of the base URL are
    dropped at construction, and the URL requested, by the shared routine
    for any endpoint and by every public call, is the base without its
    trailing slashes, one slash, and the endpoint without its leading
    slashes: the joining slash is neither doubled nor missing. *)
Theorem C6_url_composition :
  (∀ net api_key timeout c w,
     call net (__init__ api_key "https://host/api" timeout) c w
     = call net (__init__ api_key "https://host/api/" timeout) c w)
  ∧ (∀ net api_key timeout c w base,
       base = "https://host/api" ∨ base = "https://host/api/" →
       openable c w →
       ∃ req,
         wire (snd (call net (__init__ api_key base timeout) c w)) = wire w ++ [req]
         ∧ req_url req = "https://host/api/" +:+ (route c).2)
  ∧ (∀ api_key base timeout n,
       __init__ api_key (base +:+ copies n "/") timeout = __init__ api_key base timeout)
  ∧ (∀ net api_key base timeout method endpoint kw w,
       ∃ n m stem path req,
         base = stem +:+ copies n "/" ∧ Str.last stem ≠ Some "/"%char
         ∧ endpoint = copies m "/" +:+ path ∧ Str.head path ≠ Some "/"%char
         ∧ wire (snd (_request net (__init__ api_key base timeout) method endpoint kw w))
           = wire w ++ [req]
         ∧ req_method req = method
         ∧ req_url req = stem +:+ "/" +:+ path)
  ∧ (∀ net api_key base timeout c w,
       openable c w →
       ∃ n stem req,
         base = stem +:+ copies n "/" ∧ Str.last stem ≠ Some "/"%char
         ∧ Str.head (route c).2 ≠ Some "/"%char
         ∧ wire (snd (call net (__init__ api_key base timeout) c w)) = wire w ++ [req]
         ∧ req_url req = stem +:+ "/" +:+ (route c).2).
Proof.
  split; [|split; [|split; [|split]]].
  - reflexivity.
  - intros net api_key timeout c w base Hbase Hopen.
    destruct (call_request_url net (__init__ api_key base timeout) c w Hopen)
      as (req & Hw & Hu).
    exists req. split; [exact Hw|]. rewrite Hu.
    destruct Hbase as [-> | ->]; reflexivity.
  - intros. unfold __init__. rewrite rstrip_app_copies. reflexivity.
  - intros net api_key base timeout method endpoint kw w.
    destruct (rstrip_split "/" base) as [n Hn].
    destruct (lstrip_split "/" endpoint) as [m Hm].
    exists n, m, (Str.rstrip "/" base), (Str.lstrip "/" endpoint).
    eexists. repeat split.
    + exact Hn.
    + apply rstrip_last.
    + exact Hm.
    + apply lstrip_head.
    + rewrite steps_request. reflexivity.
    + reflexivity.
    + reflexivity.
  - intros net api_key base timeout c w Hopen.
    destruct (rstrip_split "/" base) as [n Hn].
    destruct (call_request_url net (__init__ api_key base timeout) c w Hopen)
      as (req & Hw & Hu).
    exists n, (Str.rstrip "/" base), req. repeat split.
    + exact Hn.
    + apply rstrip_last.
    + apply route_no_leading_slash.
    + exact Hw.
    + exact Hu.
Qed.
